(** * importx: loader selection and dispatch policy

    A shallow embedding of [src/index.ts].  The module keeps one piece of
    mutable state (the memoised probe result), reads one constant from the
    host ([nodeVersionNumbers]) and talks to external collaborators (the
    dynamic [import()], the three engine packages, [node:url], [node:path],
    [debug]).  Asynchronous functions are embedded in a small state and
    exception monad over a [World]; every call to a collaborator is recorded
    in the world's trace so that statements such as "no engine is invoked"
    can be phrased.  An awaited promise is taken to settle: a collaborator
    resolves or rejects, it does not stay pending. *)

From Stdlib Require Import ZArith Lia Ascii.
From stdpp Require Import base option list gmap strings relations.

Local Open Scope string_scope.
Local Open Scope Z_scope.

(** ** JavaScript values that cross the module's boundary *)

(** A number as [Number(...)] produces it for a segment of the version
    string: an integer, or [NaN] for a segment that is not numeric.  (The
    fractions and infinities that [Number] gives for segments such as [1e-1]
    or [Infinity] are not represented.) *)
Inductive JsNumber : Type :=
| NaN
| Num (z : Z).

Inductive JsValue : Type :=
| VUndefined
| VNull
| VBool (b : bool)
| VNumber (n : JsNumber)
| VString (s : string)
| VObject (ref : nat).

#[global] Instance JsNumber_eq_dec : EqDecision JsNumber.
Proof. solve_decision. Defined.

#[global] Instance JsValue_eq_dec : EqDecision JsValue.
Proof. solve_decision. Defined.

(** [v === s] for a string literal [s]. *)
Definition strict_eq_string (v : JsValue) (s : string) : bool :=
  match v with
  | VString t => bool_decide (t = s)
  | _ => false
  end.

(** [arr[i] < n] where [arr[i]] is [undefined] out of range: [undefined]
    converts to [NaN], and every comparison with [NaN] is false. *)
Definition js_lt (x : option JsNumber) (n : Z) : bool :=
  match x with
  | Some (Num z) => z <? n
  | _ => false
  end.

(** [arr[i] === n]. *)
Definition js_eq (x : option JsNumber) (n : Z) : bool :=
  match x with
  | Some (Num z) => z =? n
  | _ => false
  end.

(** A module namespace object (or whatever value an engine hands back):
    its identity, its [default] field, and whether it has a callable [then]
    (a module that exports a function named [then], say), which matters when
    the value is returned from a [then] callback. *)
Record JsModule : Type := {
  mod_ref : nat;
  mod_default : JsValue;
  mod_thenable : bool
}.

(** An option bag, as in [{...loaderOptions.tsx, parentURL: ...}]. *)
Abbreviation Bag := (gmap string JsValue).

(** [{...a, ...b}]: the fields of [b] win.  stdpp's union is left-biased. *)
Definition spread (a b : Bag) : Bag := b ∪ a.

(** [...x] where [x] may be [undefined]. *)
Definition spread_opt (x : option Bag) : Bag := default ∅ x.

(** ** The public types of [index.ts] *)

Inductive SupportedLoader : Type :=
| tsx
| jiti
| bundle_require
| native.

#[global] Instance SupportedLoader_eq_dec : EqDecision SupportedLoader.
Proof. solve_decision. Defined.

(** The string literal behind each member of the union type. *)
Definition loader_name (l : SupportedLoader) : string :=
  match l with
  | tsx => "tsx"
  | jiti => "jiti"
  | bundle_require => "bundle-require"
  | native => "native"
  end.

(** [cache?: boolean | null]. *)
Inductive JsCache : Type :=
| CacheUndefined
| CacheNull
| CacheBool (b : bool).

(** [string | URL]. *)
Inductive ParentRef : Type :=
| ParentString (s : string)
| ParentURL (href : string).

Record LoaderOptions : Type := {
  lo_tsx : option Bag;
  lo_jiti : option Bag;
  lo_bundleRequire : option Bag
}.

Record ImportTsOptions : Type := {
  loader : option string;
  loaderOptions : option LoaderOptions;
  cache : JsCache;
  ignoreImportxWarning : option bool;
  parentURL : ParentRef;
  with_ : option Bag
}.

(** The second argument of [importTs]: [string | URL | ImportTsOptions]. *)
Inductive ImportTsArg : Type :=
| ArgString (s : string)
| ArgURL (href : string)
| ArgOptions (o : ImportTsOptions).

(** [...otherOptions]: what is left of the options object once
    [loaderOptions], [parentURL], [cache] and [ignoreImportxWarning] are taken
    out. *)
Record OtherOptions : Type := {
  other_loader : option string;
  other_with : option Bag
}.

(** ** Collaborators, failures and the world *)

(** An error raised by a collaborator (a rejected [import()], an engine
    failure, a [TypeError] of [fileURLToPath], ...). *)
Inductive HostError : Type :=
| HostErr (description : string).

Inductive Outcome (A : Type) : Type :=
| Resolved (a : A)
| Rejected (e : HostError).
Arguments Resolved {A} a.
Arguments Rejected {A} e.

(** One call to a collaborator, tagged by the place in [index.ts] that
    makes it. *)
Inductive Event : Type :=
| EvProbeImport
| EvDebug (chosen path : string) (parent : ParentRef)
| EvNativeImport (specifier : string) (opts : OtherOptions)
| EvLoadPackage (pkg : string)
| EvTsImport (path : string) (opts : Bag)
| EvJiti (filename : string) (opts : Bag) (path : string)
| EvBundleRequire (opts : Bag).

(** The host runtime.  What a collaborator answers may depend on everything
    that happened before (the trace). *)
Record Host : Type := {
  (* line 108: [globalThis?.process?.versions?.node?.split('.').map(Number)],
     [undefined] when the host has no [process.versions.node] *)
  nodeVersionNumbers : option (list JsNumber);
  (* line 98: [import(`../${modName}`)] with [modName = 'dummy.mts'] *)
  host_import_dummy : list Event -> Outcome JsModule;
  (* line 189: [import(specifier, otherOptions)] *)
  host_import : list Event -> string -> OtherOptions -> Outcome JsModule;
  (* lines 201, 212, 229: [import('tsx/esm/api')], [import('jiti')],
     [import('bundle-require')] *)
  host_load_package : list Event -> string -> Outcome unit;
  (* line 202: [r.tsImport(path, opts)] *)
  host_tsImport : list Event -> string -> Bag -> Outcome JsModule;
  (* line 213: [r.default(filename, opts)(path)] *)
  host_jiti : list Event -> string -> Bag -> string -> Outcome JsModule;
  (* lines 230-235: [r.bundleRequire(opts)] and then its [mod] *)
  host_bundleRequire : list Event -> Bag -> Outcome JsModule;
  (* what a promise settles with when it is resolved with a value that has
     a callable [then]: this calls [value.then(resolve, reject)] *)
  host_then : list Event -> JsModule -> Outcome JsModule;
  (* [node:url] and [node:path] *)
  fileURLToPath : ParentRef -> Outcome string;
  new_URL : string -> ParentRef -> Outcome string;
  dirname : string -> string
}.

(** The module's own mutable state and the trace of collaborator calls. *)
Record World : Type := {
  _isNativeTsImportSupported : option bool;
  trace : list Event
}.

Definition initial_world : World :=
  {| _isNativeTsImportSupported := None; trace := [] |}.

(** How an asynchronous function ends: [throw new Error(msg)] of
    [index.ts] itself, or a failure of a collaborator passed on unchanged. *)
Inductive Failure : Type :=
| ImportxError (message : string)
| HostFailure (e : HostError).

Inductive Completion (A : Type) : Type :=
| Returned (a : A)
| Thrown (f : Failure).
Arguments Returned {A} a.
Arguments Thrown {A} f.

Definition Async (A : Type) : Type := World -> Completion A * World.

Definition ret {A} (a : A) : Async A := fun w => (Returned a, w).

Definition bind {A B} (m : Async A) (k : A -> Async B) : Async B :=
  fun w =>
    match m w with
    | (Returned a, w') => k a w'
    | (Thrown f, w') => (Thrown f, w')
    end.

Definition throw {A} (f : Failure) : Async A := fun w => (Thrown f, w).

Definition try_catch {A} (body : Async A) (handler : Failure -> Async A) : Async A :=
  fun w =>
    match body w with
    | (Returned a, w') => (Returned a, w')
    | (Thrown f, w') => handler f w'
    end.

Notation "'let*' x ':=' m 'in' k" := (bind m (fun x => k))
  (at level 10, x name, m at level 100, k at level 200).
Notation "'do*' m 'in' k" := (bind m (fun _ => k))
  (at level 10, m at level 100, k at level 200).

Definition read_memo : Async (option bool) :=
  fun w => (Returned (_isNativeTsImportSupported w), w).

Definition write_memo (b : bool) : Async unit :=
  fun w => (Returned tt, {| _isNativeTsImportSupported := Some b; trace := trace w |}).

Definition record (ev : Event) (w : World) : World :=
  {| _isNativeTsImportSupported := _isNativeTsImportSupported w;
     trace := trace w ++ [ev] |}.

(** Call a collaborator and wait for it: the call is recorded, a rejection
    becomes an exception at the [await]. *)
Definition await {A} (ev : Event) (call : list Event -> Outcome A) : Async A :=
  fun w =>
    match call (trace w) with
    | Resolved a => (Returned a, record ev w)
    | Rejected e => (Thrown (HostFailure e), record ev w)
    end.

(** A synchronous helper of the host that may throw. *)
Definition lift_outcome {A} (o : Outcome A) : Async A :=
  fun w =>
    match o with
    | Resolved a => (Returned a, w)
    | Rejected e => (Thrown (HostFailure e), w)
    end.

Definition emit (ev : Event) : Async unit :=
  fun w => (Returned tt, record ev w).

(** The value a [then] callback returns resolves the promise that [then]
    made: a value with a callable [then] is adopted, any other value fulfils
    the promise as it is. *)
Definition resolve_with (adopt : list Event -> JsModule -> Outcome JsModule)
    (v : JsModule) : Async JsModule :=
  fun w =>
    if mod_thenable v
    then match adopt (trace w) v with
         | Resolved a => (Returned a, w)
         | Rejected e => (Thrown (HostFailure e), w)
         end
    else (Returned v, w).

(** ** The functions of [index.ts] *)

Section Importx.

Variable h : Host.

(** [isNativeTsImportSupported] (lines 94-106).  The function returns the
    module-level variable, whose type is [boolean | undefined]. *)
Definition isNativeTsImportSupported : Async (option bool) :=
  let* memo := read_memo in
  do* (match memo with
       | None =>
           try_catch
             (let* mod_ := await EvProbeImport (host_import_dummy h) in
              write_memo (strict_eq_string (mod_default mod_) "dummy"))
             (fun _ => write_memo false)
       | Some _ => ret tt
       end) in
  read_memo.

(** [tsxOrJiti] (lines 126-144): no [await], no state; it only reads the
    module-level constant [nodeVersionNumbers]. *)
Definition tsxOrJiti : SupportedLoader :=
  match nodeVersionNumbers h with
  | None => tsx
  | Some v =>
      if js_lt (v !! 0%nat) 18
         || (js_eq (v !! 0%nat) 18 && js_lt (v !! 1%nat) 19)
         || (js_eq (v !! 0%nat) 20 && js_lt (v !! 1%nat) 8)
      then jiti
      else tsx
  end.

(** Truthiness of a [boolean | undefined]. *)
Definition truthy (b : option bool) : bool := default false b.

(** [detectLoader] (lines 113-124).  [cache] is [boolean | null]: [None] is
    [null].  The probe is awaited only when [!isTsFile] is false. *)
Definition detectLoader (cache : option bool) (isTsFile : bool) : Async SupportedLoader :=
  if bool_decide (cache = Some false) then ret tsxOrJiti
  else
    let* go_native :=
      (if negb isTsFile then ret true
       else let* supported := isNativeTsImportSupported in ret (truthy supported)) in
    if go_native then ret native
    else if bool_decide (cache = Some true) then ret jiti
    else ret tsxOrJiti.

(** [reIsTypeScriptFile = /\.[mc]?tsx?$/]: the rest of the pattern after
    the optional infix, [tsx?$]. *)
Definition re_ts_end (l : list ascii) : bool :=
  match l with
  | ["t"; "s"]%char => true
  | ["t"; "s"; "x"]%char => true
  | _ => false
  end.

(** The whole pattern matched at the head of [l]. *)
Definition re_ts_here (l : list ascii) : bool :=
  match l with
  | "."%char :: r =>
      re_ts_end r
      || match r with
         | c :: r' =>
             (bool_decide (c = "m"%char) || bool_decide (c = "c"%char)) && re_ts_end r'
         | [] => false
         end
  | _ => false
  end.

(** [RegExp.prototype.test]: a match starting anywhere. *)
Fixpoint re_ts_test (l : list ascii) : bool :=
  re_ts_here l
  || match l with
     | [] => false
     | _ :: r => re_ts_test r
     end.

(** [isTypeScriptFile] (lines 148-150). *)
Definition isTypeScriptFile (path : string) : bool :=
  re_ts_test (String.list_ascii_of_string path).

(** [path[0] === '.'] *)
Definition starts_with_dot (path : string) : bool :=
  match path with
  | String c _ => bool_decide (c = "."%char)
  | EmptyString => false
  end.

(** Lines 167-168: a bare parent reference becomes [{ parentURL: options }]. *)
Definition to_options (options : ImportTsArg) : ImportTsOptions :=
  let bare (p : ParentRef) :=
    {| loader := None; loaderOptions := None; cache := CacheUndefined;
       ignoreImportxWarning := None; parentURL := p; with_ := None |} in
  match options with
  | ArgString s => bare (ParentString s)
  | ArgURL href => bare (ParentURL href)
  | ArgOptions o => o
  end.

(** The destructuring default [cache = true] (line 173) applies to
    [undefined] only; [null] stays [null]. *)
Definition cache_or_true (c : JsCache) : option bool :=
  match c with
  | CacheUndefined => Some true
  | CacheNull => None
  | CacheBool b => Some b
  end.

(** [options.loader || 'auto'] (line 178): [undefined] and the empty string
    are falsy. *)
Definition loader_or_auto (l : option string) : string :=
  match l with
  | None => "auto"
  | Some EmptyString => "auto"
  | Some s => s
  end.

Definition no_loader_options : LoaderOptions :=
  {| lo_tsx := None; lo_jiti := None; lo_bundleRequire := None |}.

(** What lines 166-178 bind before any collaborator is called. *)
Record Resolved_options : Type := {
  r_loaderOptions : LoaderOptions;
  r_parentURL : ParentRef;
  r_cache : option bool;
  r_ignoreImportxWarning : bool;
  r_otherOptions : OtherOptions;
  r_raw_cache : JsCache;
  r_loader : string
}.

Definition resolve_options (options : ImportTsArg) : Resolved_options :=
  let options := to_options options in
  {| r_loaderOptions := default no_loader_options (loaderOptions options);
     r_parentURL := parentURL options;
     r_cache := cache_or_true (cache options);
     r_ignoreImportxWarning := default false (ignoreImportxWarning options);
     r_otherOptions :=
       {| other_loader := loader options; other_with := with_ options |};
     r_raw_cache := cache options;
     r_loader := loader_or_auto (loader options) |}.

(** The cache flags handed to jiti (lines 215-220), from [options.cache]. *)
Definition jiti_cache_flags (c : JsCache) : Bag :=
  match c with
  | CacheBool false => {[ "cache" := VBool false; "requireCache" := VBool false ]}
  | _ => ∅
  end.

(** The four [case] bodies of the [switch] (lines 185-236). *)
Definition case_native (path : string) (o : Resolved_options) : Async JsModule :=
  if bool_decide (r_cache o = Some false) && negb (r_ignoreImportxWarning o)
  then throw (ImportxError "`cache: false` is not compatible with `native` loader")
  else
    let* specifier :=
      (if starts_with_dot path
       then let* href := lift_outcome (new_URL h path (r_parentURL o)) in
            lift_outcome (fileURLToPath h (ParentURL href))
       else ret path) in
    await (EvNativeImport specifier (r_otherOptions o))
          (fun tr => host_import h tr specifier (r_otherOptions o)).

Definition case_tsx (path : string) (o : Resolved_options) : Async JsModule :=
  if bool_decide (r_cache o = Some true) && negb (r_ignoreImportxWarning o)
  then throw (ImportxError "`cache: true` is not compatible with `tsx` loader")
  else
    do* await (EvLoadPackage "tsx/esm/api")
              (fun tr => host_load_package h tr "tsx/esm/api") in
    let* parent := lift_outcome (fileURLToPath h (r_parentURL o)) in
    let opts : Bag :=
      spread (spread_opt (lo_tsx (r_loaderOptions o)))
             {[ "parentURL" := VString parent ]} in
    await (EvTsImport path opts) (fun tr => host_tsImport h tr path opts).

Definition case_jiti (path : string) (o : Resolved_options) : Async JsModule :=
  do* await (EvLoadPackage "jiti") (fun tr => host_load_package h tr "jiti") in
  let* parent := lift_outcome (fileURLToPath h (r_parentURL o)) in
  let opts : Bag :=
    spread (spread {[ "esmResolve" := VBool true ]} (jiti_cache_flags (r_raw_cache o)))
           (spread_opt (lo_jiti (r_loaderOptions o))) in
  let* exported :=
    await (EvJiti parent opts path) (fun tr => host_jiti h tr parent opts path) in
  resolve_with (host_then h) exported.

Definition case_bundle_require (path : string) (o : Resolved_options) : Async JsModule :=
  if bool_decide (r_cache o = Some true) && negb (r_ignoreImportxWarning o)
  then throw (ImportxError "`cache: true` is not compatible with `native` loader")
  else
    do* await (EvLoadPackage "bundle-require")
              (fun tr => host_load_package h tr "bundle-require") in
    let* parent := lift_outcome (fileURLToPath h (r_parentURL o)) in
    let opts : Bag :=
      spread (spread_opt (lo_bundleRequire (r_loaderOptions o)))
             {[ "filepath" := VString path; "cwd" := VString (dirname h parent) ]} in
    let* mod_ :=
      await (EvBundleRequire opts) (fun tr => host_bundleRequire h tr opts) in
    resolve_with (host_then h) mod_.

(** The [switch (loader)] of lines 184-240, on the loader's name. *)
Definition dispatch (chosen path : string) (o : Resolved_options) : Async JsModule :=
  if bool_decide (chosen = "native") then case_native path o
  else if bool_decide (chosen = "tsx") then case_tsx path o
  else if bool_decide (chosen = "jiti") then case_jiti path o
  else if bool_decide (chosen = "bundle-require") then case_bundle_require path o
  else throw (ImportxError ("Unknown loader: " +:+ chosen)).

(** Lines 178-180: the loader the [switch] runs on. *)
Definition choose_loader (path : string) (o : Resolved_options) : Async string :=
  if bool_decide (r_loader o = "auto")
  then let* l := detectLoader (r_cache o) (isTypeScriptFile path) in ret (loader_name l)
  else ret (r_loader o).

(** [importTs] (lines 166-241). *)
Definition importTs (path : string) (options : ImportTsArg) : Async JsModule :=
  let o := resolve_options options in
  let* chosen := choose_loader path o in
  do* emit (EvDebug chosen path (r_parentURL o)) in
  dispatch chosen path o.

End Importx.

(** The names [index.ts] exports ([export async function], [export function]
    and the alias of line 244). *)
Definition exports : list string :=
  ["isNativeTsImportSupported"; "isTypeScriptFile"; "importTs"; "import"].

(** ** Overlapping calls of the probe

    JavaScript runs one task at a time, but a call of an asynchronous
    function is suspended at its [await] and other calls may run in between.
    A call of [isNativeTsImportSupported] has one suspension point, the
    [await import(...)] of line 98. *)

Inductive ProbeTask : Type :=
| Called
| AwaitingImport (o : Outcome JsModule)
| Settled (r : option bool).

(** [mod.default === 'dummy'], or [false] from the [catch] block. *)
Definition probe_verdict (o : Outcome JsModule) : bool :=
  match o with
  | Resolved mod_ => strict_eq_string (mod_default mod_) "dummy"
  | Rejected _ => false
  end.

(** One uninterrupted run of a call: from the call to the [await] (or to
    the [return] when the variable is already set), or from the [await] to
    the [return]. *)
Definition probe_step (h : Host) (w : World) (t : ProbeTask) : World * ProbeTask :=
  match t with
  | Called =>
      match _isNativeTsImportSupported w with
      | None => (record EvProbeImport w, AwaitingImport (host_import_dummy h (trace w)))
      | Some b => (w, Settled (Some b))
      end
  | AwaitingImport o =>
      ({| _isNativeTsImportSupported := Some (probe_verdict o); trace := trace w |},
       Settled (Some (probe_verdict o)))
  | Settled r => (w, Settled r)
  end.

Definition is_settled (t : ProbeTask) : bool :=
  match t with
  | Settled _ => true
  | _ => false
  end.

(** The event loop picks any call that has not returned and runs it to its
    next suspension point. *)
Inductive sched_step (h : Host) : World * list ProbeTask -> World * list ProbeTask -> Prop :=
| sched_run (w : World) (ts : list ProbeTask) (i : nat) (t : ProbeTask) :
    ts !! i = Some t ->
    is_settled t = false ->
    sched_step h (w, ts) ((probe_step h w t).1, <[i := (probe_step h w t).2]> ts).

(** How often line 98 was reached. *)
Fixpoint probe_attempts (tr : list Event) : nat :=
  match tr with
  | [] => 0
  | EvProbeImport :: tr' => S (probe_attempts tr')
  | _ :: tr' => probe_attempts tr'
  end.

(** [n] calls, each awaited before the next one is made. *)
Fixpoint call_sequentially (h : Host) (n : nat) : Async (list (option bool)) :=
  match n with
  | O => ret []
  | S n' =>
      let* r := isNativeTsImportSupported h in
      let* rs := call_sequentially h n' in
      ret (r :: rs)
  end.

(** Which collaborator calls start an engine or a native import of the
    target. *)
Definition is_engine_event (ev : Event) : bool :=
  match ev with
  | EvProbeImport | EvDebug _ _ _ => false
  | _ => true
  end.

(** ** The specification's vocabulary *)

Module Spec.

Inductive CacheRequirement : Type :=
| must_cache
| must_not_cache
| indifferent.

Inductive StrategyName : Type :=
| native
| hook_transpile
| bundled_runner
| bundle_to_temp.

(** VersionThreshold table of the Runtime Version Gate, clause by clause. *)
Definition engineEligibleForVersion (major minor : option JsNumber) : bool :=
  if js_lt major 18 then false
  else if js_eq major 18 && js_lt minor 19 then false
  else if js_eq major 20 && js_lt minor 8 then false
  else true.

(** Step 4 of the Auto-Selection Policy. *)
Definition version_gate_branch (version : option (list JsNumber)) : StrategyName :=
  match version with
  | None => hook_transpile
  | Some v =>
      if negb (engineEligibleForVersion (v !! 0%nat) (v !! 1%nat)) then bundled_runner
      else hook_transpile
  end.

(** The ordered decision procedure of the Auto-Selection Policy. *)
Definition selectStrategy (cache : CacheRequirement) (isTransformableFile : bool)
    (probe : bool) (version : option (list JsNumber)) : StrategyName :=
  match cache with
  | must_not_cache => version_gate_branch version
  | _ =>
      if negb isTransformableFile || probe then native
      else
        match cache with
        | must_cache => bundled_runner
        | _ => version_gate_branch version
        end
  end.

(** CapabilityMatrix, the two cache columns. *)
Definition supportsCacheTrue (s : StrategyName) : bool :=
  match s with
  | native | bundled_runner => true
  | hook_transpile | bundle_to_temp => false
  end.

Definition supportsCacheFalse (s : StrategyName) : bool :=
  match s with
  | native => false
  | _ => true
  end.

(** Step 3 of Validation and Dispatch: does the check reject? *)
Definition cache_incompatible (cache : CacheRequirement) (s : StrategyName) : bool :=
  match cache with
  | must_cache => negb (supportsCacheTrue s)
  | must_not_cache => negb (supportsCacheFalse s)
  | indifferent => false
  end.

End Spec.

(** The code's names for the specification's notions. *)
Definition cache_of (c : Spec.CacheRequirement) : option bool :=
  match c with
  | Spec.must_cache => Some true
  | Spec.must_not_cache => Some false
  | Spec.indifferent => None
  end.

Definition strategy_of (l : SupportedLoader) : Spec.StrategyName :=
  match l with
  | native => Spec.native
  | tsx => Spec.hook_transpile
  | jiti => Spec.bundled_runner
  | bundle_require => Spec.bundle_to_temp
  end.

(** What the Capability Probe reports in a world: the memoised answer, or
    the verdict on the fixture import that would be made now. *)
Definition probe_reports (h : Host) (w : World) : bool :=
  match _isNativeTsImportSupported w with
  | Some b => b
  | None => probe_verdict (host_import_dummy h (trace w))
  end.

(** The messages of the two validation failures. *)
Definition cache_incompatible_message (cache : bool) (name : string) : string :=
  "`cache: " +:+ (if cache then "true" else "false") +:+
  "` is not compatible with `" +:+ name +:+ "` loader".

Definition unknown_loader_message (name : string) : string :=
  "Unknown loader: " +:+ name.

(** ** A concrete host, for examples *)

Definition example_module (name : string) : JsModule :=
  {| mod_ref := 7; mod_default := VString name; mod_thenable := false |}.

Definition example_host (version : option (list JsNumber)) (dummy : Outcome JsModule) : Host :=
  {| nodeVersionNumbers := version;
     host_import_dummy := fun _ => dummy;
     host_import := fun _ specifier _ => Resolved (example_module specifier);
     host_load_package := fun _ _ => Resolved tt;
     host_tsImport := fun _ path _ => Resolved (example_module path);
     host_jiti := fun _ _ _ path => Resolved (example_module path);
     host_bundleRequire := fun _ _ => Resolved (example_module "bundle");
     host_then := fun _ _ => Rejected (HostErr "then");
     fileURLToPath :=
       fun p => match p with
                | ParentURL href => Resolved href
                | ParentString s => Resolved s
                end;
     new_URL := fun path _ => Resolved path;
     dirname := fun p => p |}.

Definition node_18_19 : Host :=
  example_host (Some [Num 18; Num 19; Num 0]) (Rejected (HostErr "ERR_UNKNOWN_FILE_EXTENSION")).

Definition node_18_18 : Host :=
  example_host (Some [Num 18; Num 18; Num 2]) (Rejected (HostErr "ERR_UNKNOWN_FILE_EXTENSION")).

Definition bun_like : Host :=
  example_host None (Resolved (example_module "dummy")).

Definition example_options (l : option string) (c : JsCache) (ignore : option bool)
    : ImportTsOptions :=
  {| loader := l; loaderOptions := None; cache := c;
     ignoreImportxWarning := ignore;
     parentURL := ParentURL "file:///app/main.mjs"; with_ := None |}.

Definition options_with (l : option string) (c : JsCache) (ignore : option bool) : ImportTsArg :=
  ArgOptions (example_options l c ignore).

(** The world a call of the probe leaves behind. *)
Definition after_probe (h : Host) (w : World) : World :=
  match _isNativeTsImportSupported w with
  | Some _ => w
  | None =>
      {| _isNativeTsImportSupported := Some (probe_reports h w);
         trace := trace w ++ [EvProbeImport] |}
  end.

(** A call of the probe that nothing interrupts: its two runs in a row. *)
Definition run_to_completion (h : Host) (w : World) : World * ProbeTask :=
  let first := probe_step h w Called in
  probe_step h first.1 first.2.

(** [boolean | null] read as a cache requirement. *)
Definition requirement_of (cache : option bool) : Spec.CacheRequirement :=
  match cache with
  | Some true => Spec.must_cache
  | Some false => Spec.must_not_cache
  | None => Spec.indifferent
  end.

(** The names the [loader] option is documented to take. *)
Definition loader_names : list string :=
  ["auto"; "native"; "tsx"; "jiti"; "bundle-require"].

(** An asynchronous function ended, but not in an error of [index.ts]'s
    own making. *)
Definition no_importx_error {A} (r : Completion A * World) : Prop :=
  ∀ msg, r.1 ≠ Thrown (ImportxError msg).

(** The validation guards of the [switch], per loader (lines 186, 198, 226;
    the [jiti] case has none). *)
Definition guard (l : SupportedLoader) (o : Resolved_options) : bool :=
  match l with
  | native => bool_decide (r_cache o = Some false) && negb (r_ignoreImportxWarning o)
  | tsx | bundle_require =>
      bool_decide (r_cache o = Some true) && negb (r_ignoreImportxWarning o)
  | jiti => false
  end.

(** The message each guard throws, as written in the source. *)
Definition guard_message (l : SupportedLoader) : string :=
  match l with
  | native => "`cache: false` is not compatible with `native` loader"
  | tsx => "`cache: true` is not compatible with `tsx` loader"
  | bundle_require => "`cache: true` is not compatible with `native` loader"
  | jiti => EmptyString
  end.

(** A collaborator's outcome handed to the caller as it is: the value it
    resolved with, or its own failure. *)
Definition settle {A} (o : Outcome A) : Completion A :=
  match o with
  | Resolved a => Returned a
  | Rejected e => Thrown (HostFailure e)
  end.

(** What [importTs] ends in when a [then] callback hands back the outcome
    [o] of an engine: a failure is passed on; a value with a callable [then]
    is adopted, so the promise settles with what that [then] reports; any
    other value is returned as it is. *)
Definition then_result (h : Host) (tr : list Event) (o : Outcome JsModule)
    : Completion JsModule :=
  match o with
  | Resolved v => if mod_thenable v then settle (host_then h tr v) else Returned v
  | Rejected e => Thrown (HostFailure e)
  end.

(** A host whose jiti hands back a module that exports a function [then]
    which resolves with another value. *)
Definition host_with_thenable : Host :=
  {| nodeVersionNumbers := Some [Num 22; Num 3; Num 0];
     host_import_dummy := fun _ => Rejected (HostErr "ERR_UNKNOWN_FILE_EXTENSION");
     host_import := fun _ specifier _ => Resolved (example_module specifier);
     host_load_package := fun _ _ => Resolved tt;
     host_tsImport := fun _ path _ => Resolved (example_module path);
     host_jiti :=
       fun _ _ _ path =>
         Resolved {| mod_ref := 8; mod_default := VString path; mod_thenable := true |};
     host_bundleRequire := fun _ _ => Resolved (example_module "bundle");
     host_then := fun _ _ => Resolved (example_module "value-passed-by-then");
     fileURLToPath :=
       fun p => match p with
                | ParentURL href => Resolved href
                | ParentString s => Resolved s
                end;
     new_URL := fun path _ => Resolved path;
     dirname := fun p => p |}.


(** The package each engine is loaded from (lines 201, 212, 229). *)
Definition package_of (l : SupportedLoader) : string :=
  match l with
  | tsx => "tsx/esm/api"
  | jiti => "jiti"
  | bundle_require => "bundle-require"
  | native => EmptyString
  end.

(** The file names [reIsTypeScriptFile] accepts end in one of these. *)
Definition ts_suffixes : list string :=
  [".ts"; ".tsx"; ".mts"; ".mtsx"; ".cts"; ".ctsx"].

(** Calls of [importTs] made one after the other, each awaited (whether it
    returned or threw) before the next. *)
Fixpoint import_all (h : Host) (calls : list (string * ImportTsArg)) (w : World) : World :=
  match calls with
  | [] => w
  | (path, options) :: rest => import_all h rest (importTs h path options w).2
  end.

(** Calls of the probe that have not reached line 95 yet. *)
Definition not_started (t : ProbeTask) : nat :=
  match t with
  | Called => 1
  | _ => 0
  end.

Definition total (f : ProbeTask -> nat) (ts : list ProbeTask) : nat :=
  sum_list (f <$> ts).

(** A host on which no engine package is installed. *)
Definition host_without_packages : Host :=
  {| nodeVersionNumbers := Some [Num 22; Num 3; Num 0];
     host_import_dummy := fun _ => Rejected (HostErr "ERR_UNKNOWN_FILE_EXTENSION");
     host_import := fun _ specifier _ => Resolved (example_module specifier);
     host_load_package := fun _ _ => Rejected (HostErr "ERR_MODULE_NOT_FOUND");
     host_tsImport := fun _ path _ => Resolved (example_module path);
     host_jiti := fun _ _ _ path => Resolved (example_module path);
     host_bundleRequire := fun _ _ => Resolved (example_module "bundle");
     host_then := fun _ _ => Rejected (HostErr "then");
     fileURLToPath :=
       fun p => match p with
                | ParentURL href => Resolved href
                | ParentString s => Rejected (HostErr "ERR_INVALID_URL")
                end;
     new_URL := fun path _ => Resolved path;
     dirname := fun p => p |}.

(** Proof steps shared below: split on what the collaborators answer, and
    open the monad. *)
Ltac crunch_outcomes :=
  repeat match goal with
    | |- context [match ?o with Resolved _ => _ | Rejected _ => _ end] =>
        destruct o
    | |- context [if mod_thenable ?v then _ else _] =>
        destruct (mod_thenable v)
    end.

Ltac unfold_async :=
  unfold bind, await, lift_outcome, emit, throw, ret, record, resolve_with; cbn.

(** * Properties *)

(** ** The embedding at work *)

Example isTypeScriptFile_accepts :
  map isTypeScriptFile ["./mod.ts"; "a.tsx"; "b.mts"; "c.ctsx"; ".ts"] = [true; true; true; true; true].
Proof. reflexivity. Qed.

Example isTypeScriptFile_rejects :
  map isTypeScriptFile ["./mod.js"; "a.ts.js"; "ts"; "a.dts"; "a.tsxx"; "a.ts "]
  = [false; false; false; false; false; false].
Proof. reflexivity. Qed.

(** [./mod.ts], [cache: false], automatic loader, a host without version
    numbers: tsx is chosen and run, the probe is not consulted. *)
Example scenario_no_version :
  trace (importTs bun_like "./mod.ts" (options_with None (CacheBool false) None)
           initial_world).2
  = [EvDebug "tsx" "./mod.ts" (ParentURL "file:///app/main.mjs");
     EvLoadPackage "tsx/esm/api";
     EvTsImport "./mod.ts" {[ "parentURL" := VString "file:///app/main.mjs" ]}].
Proof. vm_compute. reflexivity. Qed.

(** [./mod.js], [cache: true], automatic loader: the native import, whatever
    the probe would say. *)
Example scenario_plain_js :
  (importTs node_18_19 "./mod.js" (options_with None (CacheBool true) None)
     initial_world).2
  = {| _isNativeTsImportSupported := None;
       trace := [EvDebug "native" "./mod.js" (ParentURL "file:///app/main.mjs");
                 EvNativeImport "./mod.js"
                   {| other_loader := None; other_with := None |}] |}.
Proof. reflexivity. Qed.

(** A module that exports a function [then] and is loaded with jiti: the
    caller gets what that [then] resolves with, not the module. *)
Example scenario_thenable_module :
  (importTs host_with_thenable "./mod.ts" (options_with (Some "jiti") CacheNull None)
     initial_world).1
  = Returned (example_module "value-passed-by-then").
Proof. reflexivity. Qed.

(** A TypeScript file on Node 18.19 with the default cache: the probe fails,
    so jiti runs. *)
Example scenario_shorthand_on_node :
  map is_engine_event
    (trace (importTs node_18_19 "./mod.ts" (ArgString "file:///app/main.mjs")
              initial_world).2)
  = [false; false; true; true].
Proof. reflexivity. Qed.


(** ** The capability probe *)

Section Probe.

Variable h : Host.

Lemma probe_run (w : World) :
  isNativeTsImportSupported h w = (Returned (Some (probe_reports h w)), after_probe h w).
Proof.
  destruct w as [[b|] tr]; [reflexivity|].
  unfold isNativeTsImportSupported, after_probe, probe_reports, bind, try_catch, await.
  cbn. destruct (host_import_dummy h tr) as [m|e]; reflexivity.
Qed.

(** The monadic embedding and the two-step embedding of the probe agree. *)
Lemma probe_run_steps (w : World) :
  run_to_completion h w = (after_probe h w, Settled (Some (probe_reports h w))).
Proof.
  destruct w as [[b|] tr]; reflexivity.
Qed.

Lemma after_probe_memo (w : World) :
  _isNativeTsImportSupported (after_probe h w) = Some (probe_reports h w).
Proof. destruct w as [[b|] tr]; reflexivity. Qed.

Lemma probe_attempts_app (tr1 tr2 : list Event) :
  probe_attempts (tr1 ++ tr2) = (probe_attempts tr1 + probe_attempts tr2)%nat.
Proof.
  induction tr1 as [|ev tr1 IH]; [reflexivity|].
  destruct ev; cbn; rewrite IH; reflexivity.
Qed.

Lemma after_probe_attempts (w : World) :
  (probe_attempts (trace (after_probe h w)) ≤ S (probe_attempts (trace w)))%nat.
Proof.
  destruct w as [[b|] tr]; cbn; [lia|].
  rewrite probe_attempts_app. cbn. lia.
Qed.

Lemma call_sequentially_memoised (n : nat) (w : World) (b : bool) :
  _isNativeTsImportSupported w = Some b ->
  call_sequentially h n w = (Returned (replicate n (Some b)), w).
Proof.
  intros Hmemo. induction n as [|n IH]; [reflexivity|].
  cbn [call_sequentially]. unfold bind at 1. rewrite probe_run.
  unfold bind at 1. unfold after_probe, probe_reports. rewrite Hmemo, IH.
  reflexivity.
Qed.

Lemma call_sequentially_run (n : nat) (w : World) :
  ∃ w', call_sequentially h n w = (Returned (replicate n (Some (probe_reports h w))), w')
        ∧ (probe_attempts (trace w') ≤ S (probe_attempts (trace w)))%nat.
Proof.
  destruct n as [|n].
  - exists w. split; [reflexivity | lia].
  - exists (after_probe h w). split; [|apply after_probe_attempts].
    cbn [call_sequentially]. unfold bind at 1. rewrite probe_run.
    unfold bind at 1.
    rewrite (call_sequentially_memoised n _ _ (after_probe_memo w)).
    reflexivity.
Qed.

(** Once the variable is set, no interleaving of calls reaches line 98. *)
Lemma sched_step_memoised (c c' : World * list ProbeTask) :
  sched_step h c c' ->
  is_Some (_isNativeTsImportSupported c.1) ->
  is_Some (_isNativeTsImportSupported c'.1)
  ∧ probe_attempts (trace c'.1) = probe_attempts (trace c.1).
Proof.
  intros Hstep [b Hb]. destruct Hstep as [w ts i t Hi Hrun]. cbn in *.
  destruct t as [|o|r]; cbn; [rewrite Hb; cbn; eauto | eauto | discriminate].
Qed.

Lemma reachable_memoised (c c' : World * list ProbeTask) :
  rtc (sched_step h) c c' ->
  is_Some (_isNativeTsImportSupported c.1) ->
  is_Some (_isNativeTsImportSupported c'.1)
  ∧ probe_attempts (trace c'.1) = probe_attempts (trace c.1).
Proof.
  induction 1 as [c|c1 c2 c3 Hstep Hrest IH]; [eauto|].
  intros Hset. destruct (sched_step_memoised _ _ Hstep Hset) as [Hset2 Heq].
  destruct (IH Hset2) as [Hset3 Heq3]. split; [assumption | congruence].
Qed.

End Probe.

(** C7: [isNativeTsImportSupported] never ends in an exception, whatever the
    host does; when the variable is still unset, a failing fixture import
    gives [false], and the answer is [true] exactly when the import succeeds
    and the module's [default] is the string ['dummy']. *)
Theorem isNativeTsImportSupported_never_throws (h : Host) (w : World) :
  ∃ (b : bool) (w' : World),
    isNativeTsImportSupported h w = (Returned (Some b), w')
    ∧ (_isNativeTsImportSupported w = None ->
       (∀ e, host_import_dummy h (trace w) = Rejected e -> b = false)
       ∧ (b = true ↔
          ∃ mod_, host_import_dummy h (trace w) = Resolved mod_
                  ∧ mod_default mod_ = VString "dummy")).
Proof.
  exists (probe_reports h w), (after_probe h w). split; [apply probe_run|].
  intros Hfresh. unfold probe_reports. rewrite Hfresh.
  destruct (host_import_dummy h (trace w)) as [m|e] eqn:Himport; cbn.
  - split; [discriminate|]. unfold strict_eq_string.
    destruct (mod_default m) as [| |?|?|s|?] eqn:Hdefault;
      try (split; [discriminate | intros (m' & Hm' & Hd); congruence]).
    rewrite bool_decide_eq_true. split.
    + intros ->. exists m. split; [reflexivity|assumption].
    + intros (m' & Hm' & Hd). congruence.
  - split; [reflexivity|]. split; [discriminate|].
    intros (m' & Hm' & _). discriminate.
Qed.

Lemma isNativeTsImportSupported_never_throws_witness :
  ∃ (b : bool) (w' : World),
    isNativeTsImportSupported bun_like initial_world = (Returned (Some b), w')
    ∧ b = true.
Proof.
  destruct (isNativeTsImportSupported_never_throws bun_like initial_world)
    as (b & w' & Hrun & Hfresh).
  exists b, w'. split; [exact Hrun|].
  apply (Hfresh eq_refl). exists (example_module "dummy").
  split; reflexivity.
Defined.

(** C6, as amended: calls made one after the other all return the same
    boolean and reach the fixture import at most once; and once the variable
    is set, no interleaving of calls reaches the import again.  (Calls that
    overlap before the first one has resumed each make their own import.) *)
Theorem probe_memoised (h : Host) :
  (∀ (n : nat) (w : World),
     ∃ (b : bool) (w' : World),
       call_sequentially h n w = (Returned (replicate n (Some b)), w')
       ∧ (probe_attempts (trace w') ≤ S (probe_attempts (trace w)))%nat)
  ∧ (∀ (n : nat),
       ∃ (b : bool) (w' : World),
         call_sequentially h n initial_world = (Returned (replicate n (Some b)), w')
         ∧ (probe_attempts (trace w') ≤ 1)%nat)
  ∧ (∀ (w w' : World) (ts ts' : list ProbeTask),
       is_Some (_isNativeTsImportSupported w) ->
       rtc (sched_step h) (w, ts) (w', ts') ->
       probe_attempts (trace w') = probe_attempts (trace w)).
Proof.
  split; [|split].
  - intros n w. destruct (call_sequentially_run h n w) as (w' & Hrun & Hle).
    eauto.
  - intros n. destruct (call_sequentially_run h n initial_world) as (w' & Hrun & Hle).
    eauto.
  - intros w w' ts ts' Hset Hreach.
    apply (reachable_memoised h _ _ Hreach Hset).
Qed.

Lemma probe_memoised_witness :
  probe_attempts
    (trace (after_probe node_18_19 initial_world)) =
  probe_attempts
    (trace (run_to_completion node_18_19 (after_probe node_18_19 initial_world)).1).
Proof.
  symmetry.
  apply (proj2 (proj2 (probe_memoised node_18_19))
           (after_probe node_18_19 initial_world) _ [Called] [Settled (Some false)]).
  - eexists. reflexivity.
  - apply rtc_once.
    apply (sched_run node_18_19 (after_probe node_18_19 initial_world) [Called] 0 Called);
      reflexivity.
Defined.

(** C6 as stated fails: two calls that both start before the first import
    has settled reach the fixture import twice. *)
Lemma concurrent_first_calls_import_twice :
  ∃ (w : World) (ts : list ProbeTask),
    rtc (sched_step node_18_19) (initial_world, [Called; Called]) (w, ts)
    ∧ probe_attempts (trace w) = 2%nat.
Proof.
  exists {| _isNativeTsImportSupported := None; trace := [EvProbeImport; EvProbeImport] |}.
  exists [AwaitingImport (Rejected (HostErr "ERR_UNKNOWN_FILE_EXTENSION"));
          AwaitingImport (Rejected (HostErr "ERR_UNKNOWN_FILE_EXTENSION"))].
  split; [|reflexivity].
  apply (rtc_l _ _
           ({| _isNativeTsImportSupported := None; trace := [EvProbeImport] |},
            [AwaitingImport (Rejected (HostErr "ERR_UNKNOWN_FILE_EXTENSION")); Called])).
  { exact (sched_run node_18_19 initial_world [Called; Called] 0 Called eq_refl eq_refl). }
  apply rtc_once.
  exact (sched_run node_18_19
           {| _isNativeTsImportSupported := None; trace := [EvProbeImport] |}
           [AwaitingImport (Rejected (HostErr "ERR_UNKNOWN_FILE_EXTENSION")); Called]
           1 Called eq_refl eq_refl).
Qed.

(** ** The version gate and the automatic selection *)

Section Selection.

Variable h : Host.

Lemma tsxOrJiti_gate :
  strategy_of (tsxOrJiti h) = Spec.version_gate_branch (nodeVersionNumbers h).
Proof.
  unfold tsxOrJiti, Spec.version_gate_branch, Spec.engineEligibleForVersion.
  destruct (nodeVersionNumbers h) as [v|]; [|reflexivity].
  destruct (js_lt (v !! 0%nat) 18); [reflexivity|].
  destruct (js_eq (v !! 0%nat) 18 && js_lt (v !! 1%nat) 19); [reflexivity|].
  destruct (js_eq (v !! 0%nat) 20 && js_lt (v !! 1%nat) 8); reflexivity.
Qed.

Lemma tsxOrJiti_cases : tsxOrJiti h = tsx ∨ tsxOrJiti h = jiti.
Proof.
  unfold tsxOrJiti. destruct (nodeVersionNumbers h) as [v|]; [|by left].
  destruct (_ || _); [by right | by left].
Qed.

(** [detectLoader], run in a world. *)
Lemma detectLoader_run (cache : option bool) (isTsFile : bool) (w : World) :
  detectLoader h cache isTsFile w =
  if bool_decide (cache = Some false) then (Returned (tsxOrJiti h), w)
  else if negb isTsFile then (Returned native, w)
  else if probe_reports h w then (Returned native, after_probe h w)
  else if bool_decide (cache = Some true) then (Returned jiti, after_probe h w)
  else (Returned (tsxOrJiti h), after_probe h w).
Proof.
  unfold detectLoader.
  destruct (bool_decide (cache = Some false)); [reflexivity|].
  destruct isTsFile; cbn [negb]; [|reflexivity].
  unfold bind at 1. unfold bind at 1. rewrite probe_run. cbn.
  destruct (probe_reports h w); cbn; [reflexivity|].
  destruct (bool_decide (cache = Some true)); reflexivity.
Qed.

End Selection.

(** C5: the version gate depends on the host's version numbers only.  With
    no version numbers the answer is [tsx], also from [detectLoader] when it
    takes this branch; for a version triple it is [jiti] exactly for a major
    below 18, for 18 with a minor below 19 and for 20 with a minor below 8,
    and [tsx] otherwise, in particular for major 19. *)
Theorem tsxOrJiti_version_gate (h : Host) :
  (nodeVersionNumbers h = None ->
   tsxOrJiti h = tsx
   ∧ ∀ (isTsFile : bool) (w : World),
       detectLoader h (Some false) isTsFile w = (Returned tsx, w))
  ∧ (∀ major minor patch : Z,
       nodeVersionNumbers h = Some [Num major; Num minor; Num patch] ->
       (major < 18 -> tsxOrJiti h = jiti)
       ∧ (major = 18 -> minor < 19 -> tsxOrJiti h = jiti)
       ∧ (major = 20 -> minor < 8 -> tsxOrJiti h = jiti)
       ∧ (major = 19 -> tsxOrJiti h = tsx)
       ∧ (¬ (major < 18 ∨ (major = 18 ∧ minor < 19) ∨ (major = 20 ∧ minor < 8)) ->
          tsxOrJiti h = tsx))
  ∧ (∀ h' : Host, nodeVersionNumbers h' = nodeVersionNumbers h -> tsxOrJiti h' = tsxOrJiti h).
Proof.
  split; [|split].
  - intros Hnone. assert (Hgate : tsxOrJiti h = tsx).
    { unfold tsxOrJiti. rewrite Hnone. reflexivity. }
    split; [exact Hgate|]. intros isTsFile w.
    rewrite detectLoader_run, Hgate. reflexivity.
  - intros major minor patch Hversion. unfold tsxOrJiti. rewrite Hversion. cbn.
    repeat split.
    + intros Hlt. apply Z.ltb_lt in Hlt. rewrite Hlt. reflexivity.
    + intros -> Hlt. apply Z.ltb_lt in Hlt. rewrite Hlt. reflexivity.
    + intros -> Hlt. apply Z.ltb_lt in Hlt. rewrite Hlt. reflexivity.
    + intros ->. reflexivity.
    + intros Hnot.
      destruct (Z.ltb_spec major 18); [lia|].
      destruct (Z.eqb_spec major 18), (Z.ltb_spec minor 19); try lia;
        destruct (Z.eqb_spec major 20), (Z.ltb_spec minor 8); try lia; reflexivity.
  - intros h' Hsame. unfold tsxOrJiti. rewrite Hsame. reflexivity.
Qed.

Lemma tsxOrJiti_version_gate_witness :
  tsxOrJiti node_18_18 = jiti
  ∧ tsxOrJiti bun_like = tsx
  ∧ detectLoader bun_like (Some false) true initial_world = (Returned tsx, initial_world).
Proof.
  split; [|split].
  - apply (proj1 (proj2 (proj1 (proj2 (tsxOrJiti_version_gate node_18_18))
                           18 18 2 eq_refl))); [reflexivity | lia].
  - apply (proj1 (proj1 (tsxOrJiti_version_gate bun_like) eq_refl)).
  - apply (proj2 (proj1 (tsxOrJiti_version_gate bun_like) eq_refl)).
Defined.

(** C1: for every cache requirement and every value of the flag,
    [detectLoader] returns the strategy the ordered procedure of the
    Auto-Selection Policy gives for the probe's report and the host's version
    numbers, and never [bundle-require]. *)
Theorem detectLoader_follows_procedure (h : Host) (w : World)
    (c : Spec.CacheRequirement) (isTsFile : bool) :
  ∃ (l : SupportedLoader) (w' : World),
    detectLoader h (cache_of c) isTsFile w = (Returned l, w')
    ∧ strategy_of l =
      Spec.selectStrategy c isTsFile (probe_reports h w) (nodeVersionNumbers h)
    ∧ l ≠ bundle_require.
Proof.
  rewrite detectLoader_run.
  pose proof (tsxOrJiti_gate h) as Hgate.
  pose proof (tsxOrJiti_cases h) as Hcases.
  destruct c, isTsFile; cbn; try destruct (probe_reports h w); cbn;
    eexists _, _; (split; [reflexivity|]); (split; [try reflexivity; exact Hgate|]);
    first [discriminate | destruct Hcases as [Heq | Heq]; rewrite Heq; discriminate].
Qed.

(** C2: with [cache === false], [detectLoader] never returns [native],
    whatever the flag; with any other cache value and a file that is not a
    TypeScript file it returns [native] without consulting the probe. *)
Theorem detectLoader_native_interaction (h : Host) (w : World) :
  (∀ isTsFile : bool,
     ∃ (l : SupportedLoader) (w' : World),
       detectLoader h (Some false) isTsFile w = (Returned l, w') ∧ l ≠ native)
  ∧ (∀ cache : option bool,
       cache ≠ Some false ->
       detectLoader h cache false w = (Returned native, w)).
Proof.
  split.
  - intros isTsFile. rewrite detectLoader_run. cbn.
    eexists _, _. split; [reflexivity|].
    destruct (tsxOrJiti_cases h) as [-> | ->]; discriminate.
  - intros cache Hcache. rewrite detectLoader_run.
    rewrite bool_decide_eq_false_2 by exact Hcache. reflexivity.
Qed.

Lemma detectLoader_native_interaction_witness :
  detectLoader node_18_19 (Some true) false initial_world = (Returned native, initial_world)
  ∧ detectLoader bun_like None false initial_world = (Returned native, initial_world).
Proof.
  split.
  - apply (proj2 (detectLoader_native_interaction node_18_19 initial_world) (Some true)).
    discriminate.
  - apply (proj2 (detectLoader_native_interaction bun_like initial_world) None).
    discriminate.
Defined.

(** ** Validation and dispatch *)

Section Dispatch.

Variable h : Host.

Lemma dispatch_loader (l : SupportedLoader) (path : string) (o : Resolved_options) :
  dispatch h (loader_name l) path o =
  match l with
  | native => case_native h path o
  | tsx => case_tsx h path o
  | jiti => case_jiti h path o
  | bundle_require => case_bundle_require h path o
  end.
Proof. destruct l; reflexivity. Qed.

(** A guard that fires throws its message before anything else happens. *)
Lemma dispatch_guard_fires (l : SupportedLoader) (path : string)
    (o : Resolved_options) (w : World) :
  guard l o = true ->
  dispatch h (loader_name l) path o w = (Thrown (ImportxError (guard_message l)), w).
Proof.
  intros Hguard. rewrite dispatch_loader.
  destruct l; cbn in Hguard; try discriminate;
    unfold case_native, case_tsx, case_bundle_require; rewrite Hguard; reflexivity.
Qed.

(** A guard that does not fire leaves only the collaborators to fail. *)
Lemma dispatch_guard_passes (l : SupportedLoader) (path : string)
    (o : Resolved_options) (w : World) :
  guard l o = false ->
  no_importx_error (dispatch h (loader_name l) path o w).
Proof.
  intros Hguard msg. rewrite dispatch_loader.
  destruct l; cbn in Hguard;
    unfold case_native, case_tsx, case_jiti, case_bundle_require;
    rewrite ?Hguard; unfold_async;
    try destruct (starts_with_dot path); crunch_outcomes; cbn; discriminate.
Qed.

(** The guards are the capability matrix, unless the caller bypasses them. *)
Lemma guard_matrix (l : SupportedLoader) (o : Resolved_options) :
  guard l o =
  negb (r_ignoreImportxWarning o)
  && Spec.cache_incompatible (requirement_of (r_cache o)) (strategy_of l).
Proof.
  unfold guard.
  destruct l, (r_cache o) as [[|]|], (r_ignoreImportxWarning o); reflexivity.
Qed.

(** No case of the [switch] writes the module's variable. *)
Lemma dispatch_keeps_memo (chosen path : string) (o : Resolved_options) (w : World) :
  _isNativeTsImportSupported (dispatch h chosen path o w).2 = _isNativeTsImportSupported w.
Proof.
  unfold dispatch, case_native, case_tsx, case_jiti, case_bundle_require.
  repeat case_bool_decide; unfold_async;
    repeat match goal with |- context [if ?b then _ else _] => destruct b end;
    unfold_async; crunch_outcomes; reflexivity.
Qed.

(** With [loader: 'auto'] the [switch] runs on what [detectLoader] returns. *)
Lemma choose_loader_auto (path : string) (o : Resolved_options) (w : World) :
  r_loader o = "auto" ->
  ∃ (l : SupportedLoader) (w' : World),
    detectLoader h (r_cache o) (isTypeScriptFile path) w = (Returned l, w')
    ∧ choose_loader h path o w = (Returned (loader_name l), w')
    ∧ Spec.cache_incompatible (requirement_of (r_cache o)) (strategy_of l) = false
    ∧ (_isNativeTsImportSupported w' = _isNativeTsImportSupported w
       ∨ _isNativeTsImportSupported w' = Some (probe_reports h w)).
Proof.
  intros Hauto.
  assert (Hchoose : choose_loader h path o w =
                    match detectLoader h (r_cache o) (isTypeScriptFile path) w with
                    | (Returned l, w') => (Returned (loader_name l), w')
                    | (Thrown f, w') => (Thrown f, w')
                    end).
  { unfold choose_loader. rewrite Hauto. reflexivity. }
  rewrite Hchoose, detectLoader_run.
  assert (Hmemo := after_probe_memo h w).
  destruct (tsxOrJiti_cases h) as [Hgate | Hgate]; rewrite Hgate;
    destruct (r_cache o) as [[|]|]; cbn;
    destruct (isTypeScriptFile path); cbn;
    try destruct (probe_reports h w); cbn;
    eexists _, _; (split; [reflexivity|]);
    (split; [reflexivity|]); (split; [reflexivity|]); auto.
Qed.

End Dispatch.

Section Entry.

Variable h : Host.

(** [importTs], run in a world: choose, log, switch. *)
Lemma importTs_run (path : string) (options : ImportTsArg) (w : World) :
  importTs h path options w =
  match choose_loader h path (resolve_options options) w with
  | (Returned chosen, w1) =>
      dispatch h chosen path (resolve_options options)
        (record (EvDebug chosen path (r_parentURL (resolve_options options))) w1)
  | (Thrown f, w1) => (Thrown f, w1)
  end.
Proof.
  unfold importTs, bind, emit.
  destruct (choose_loader h path (resolve_options options) w) as [[chosen|f] w1];
    reflexivity.
Qed.

Lemma choose_loader_explicit (path : string) (o : Resolved_options) (w : World) :
  r_loader o ≠ "auto" ->
  choose_loader h path o w = (Returned (r_loader o), w).
Proof.
  intros Hexplicit. unfold choose_loader.
  rewrite bool_decide_eq_false_2 by exact Hexplicit. reflexivity.
Qed.

Lemma loader_name_not_auto (l : SupportedLoader) : loader_name l ≠ "auto".
Proof. destruct l; discriminate. Qed.

(** For an explicitly requested loader, the validation error is thrown
    exactly when the loader's guard fires, right after the debug line and
    before any collaborator is called. *)
Lemma importTs_validation (l : SupportedLoader) (path : string)
    (options : ImportTsArg) (w : World) :
  r_loader (resolve_options options) = loader_name l ->
  if guard l (resolve_options options)
  then importTs h path options w =
       (Thrown (ImportxError (guard_message l)),
        record (EvDebug (loader_name l) path (r_parentURL (resolve_options options))) w)
  else no_importx_error (importTs h path options w).
Proof.
  intros Hloader. rewrite importTs_run, choose_loader_explicit, Hloader
    by (rewrite Hloader; apply loader_name_not_auto).
  destruct (guard l (resolve_options options)) eqn:Hguard.
  - apply dispatch_guard_fires, Hguard.
  - apply dispatch_guard_passes, Hguard.
Qed.

End Entry.

(** C10: with [loader: 'auto'] (or no loader at all), whatever
    [ignoreImportxWarning] says, the loader [detectLoader] returns passes the
    guard of its [case]: it supports the cache requirement in the capability
    matrix, and [importTs] ends in no error of its own, only in a module or
    in a collaborator's failure. *)
Theorem auto_passes_validation (h : Host) (w : World) (path : string)
    (options : ImportTsArg) :
  r_loader (resolve_options options) = "auto" ->
  (∀ msg, (importTs h path options w).1 ≠ Thrown (ImportxError msg))
  ∧ ∃ (l : SupportedLoader) (w' : World),
      detectLoader h (r_cache (resolve_options options)) (isTypeScriptFile path) w
      = (Returned l, w')
      ∧ guard l (resolve_options options) = false
      ∧ Spec.cache_incompatible
          (requirement_of (r_cache (resolve_options options))) (strategy_of l) = false.
Proof.
  intros Hauto.
  destruct (choose_loader_auto h path _ w Hauto) as (l & w' & Hdetect & Hchoose & Hok & _).
  assert (Hguard : guard l (resolve_options options) = false).
  { rewrite guard_matrix, Hok. apply andb_false_r. }
  split; [|eauto].
  rewrite importTs_run, Hchoose. apply dispatch_guard_passes, Hguard.
Qed.

Lemma auto_passes_validation_witness :
  (importTs node_18_18 "./vite.config.ts"
     (options_with (Some "auto") (CacheBool true) (Some false)) initial_world).1
  ≠ Thrown (ImportxError (cache_incompatible_message true "jiti"))
  ∧ ∃ (l : SupportedLoader) (w' : World),
      detectLoader node_18_18 (Some true) true initial_world = (Returned l, w')
      ∧ guard l (resolve_options (options_with (Some "auto") (CacheBool true) (Some false)))
        = false.
Proof.
  destruct (auto_passes_validation node_18_18 initial_world "./vite.config.ts"
              (options_with (Some "auto") (CacheBool true) (Some false)) eq_refl)
    as [Hno (l & w' & Hdetect & Hguard & _)].
  split; [apply Hno|].
  exists l, w'. split; [exact Hdetect | exact Hguard].
Defined.

(** C3, at the failing input: [loader: 'bundle-require'] with [cache: true]
    and no bypass is rejected before any collaborator is called, but the
    message names [native], not the loader that was resolved. *)
Theorem bundle_require_guard_names_native (h : Host) (w : World) (path : string)
    (parent : ParentRef) (lo : option LoaderOptions) (attrs : option Bag) :
  importTs h path
    (ArgOptions {| loader := Some "bundle-require"; loaderOptions := lo;
                   cache := CacheBool true; ignoreImportxWarning := None;
                   parentURL := parent; with_ := attrs |}) w
  = (Thrown (ImportxError (cache_incompatible_message true (loader_name native))),
     record (EvDebug "bundle-require" path parent) w)
  ∧ cache_incompatible_message true (loader_name native)
    ≠ cache_incompatible_message true (loader_name bundle_require).
Proof.
  split; [|discriminate].
  apply (importTs_validation h bundle_require path
           (ArgOptions {| loader := Some "bundle-require"; loaderOptions := lo;
                          cache := CacheBool true; ignoreImportxWarning := None;
                          parentURL := parent; with_ := attrs |}) w eq_refl).
Qed.

(** C8, as amended: a requested loader name that is not empty and is none
    of ['auto'], ['native'], ['tsx'], ['jiti'], ['bundle-require'] makes
    [importTs] throw [Unknown loader: <name>], whatever the other options
    are; only the debug line is written before, and the module's variable is
    untouched. *)
Theorem unknown_loader_always_fails (h : Host) (w : World) (path : string)
    (o : ImportTsOptions) (name : string) :
  loader o = Some name ->
  name ≠ EmptyString ->
  name ∉ loader_names ->
  importTs h path (ArgOptions o) w
  = (Thrown (ImportxError (unknown_loader_message name)),
     record (EvDebug name path (parentURL o)) w).
Proof.
  intros Hloader Hnonempty Hunknown.
  assert (Hresolved : r_loader (resolve_options (ArgOptions o)) = name).
  { cbn. rewrite Hloader. destruct name; [contradiction | reflexivity]. }
  unfold loader_names in Hunknown.
  rewrite !not_elem_of_cons in Hunknown.
  destruct Hunknown as (Hauto & Hnative & Htsx & Hjiti & Hbundle & _).
  rewrite importTs_run, choose_loader_explicit, Hresolved
    by (rewrite Hresolved; exact Hauto).
  unfold dispatch.
  rewrite !bool_decide_eq_false_2 by assumption.
  reflexivity.
Qed.

Lemma unknown_loader_always_fails_witness :
  importTs node_18_19 "./mod.ts" (options_with (Some "foo") CacheNull (Some true))
    initial_world
  = (Thrown (ImportxError "Unknown loader: foo"),
     record (EvDebug "foo" "./mod.ts" (ParentURL "file:///app/main.mjs")) initial_world).
Proof.
  apply (unknown_loader_always_fails node_18_19 initial_world "./mod.ts"
           (example_options (Some "foo") CacheNull (Some true)) "foo" eq_refl).
  - discriminate.
  - unfold loader_names. rewrite !not_elem_of_cons.
    repeat split; try discriminate. apply not_elem_of_nil.
Defined.

(** C8 as stated fails: the empty string is outside the enumeration and is
    not ['auto'], yet [options.loader || 'auto'] turns it into ['auto'], and
    an engine is run. *)
Lemma empty_loader_name_means_auto :
  (EmptyString ∉ loader_names)
  ∧ ∃ (mod_ : JsModule) (w' : World),
      importTs node_18_19 "./mod.ts" (options_with (Some EmptyString) (CacheBool false) None)
        initial_world = (Returned mod_, w')
      ∧ existsb is_engine_event (trace w') = true.
Proof.
  split.
  - unfold loader_names. rewrite !not_elem_of_cons.
    repeat split; try discriminate. apply not_elem_of_nil.
  - eexists _, _. split; [vm_compute; reflexivity|]. reflexivity.
Qed.

(** C9: called with a bare parent reference (a string or a URL), [importTs]
    works with [cache = true] and [loader = 'auto']: it runs the [switch] on
    the loader [detectLoader(true, ...)] returns, with [cache] being [true]
    and the parent being that reference.  An options object that leaves
    [cache] out is treated exactly like one with [cache: true], and one that
    leaves [loader] out runs the [switch] on what [detectLoader] returns. *)
Theorem importTs_defaults (h : Host) (path : string) :
  (∀ s : string,
     r_cache (resolve_options (ArgString s)) = Some true
     ∧ r_loader (resolve_options (ArgString s)) = "auto"
     ∧ r_parentURL (resolve_options (ArgString s)) = ParentString s
     ∧ choose_loader h path (resolve_options (ArgString s))
       = (let* l := detectLoader h (Some true) (isTypeScriptFile path) in
          ret (loader_name l))
     ∧ ∀ w : World,
         ∃ (l : SupportedLoader) (w1 : World),
           detectLoader h (Some true) (isTypeScriptFile path) w = (Returned l, w1)
           ∧ importTs h path (ArgString s) w
             = dispatch h (loader_name l) path
                 {| r_loaderOptions := no_loader_options;
                    r_parentURL := ParentString s;
                    r_cache := Some true;
                    r_ignoreImportxWarning := false;
                    r_otherOptions := {| other_loader := None; other_with := None |};
                    r_raw_cache := CacheUndefined;
                    r_loader := "auto" |}
                 (record (EvDebug (loader_name l) path (ParentString s)) w1))
  ∧ (∀ href : string,
       r_cache (resolve_options (ArgURL href)) = Some true
       ∧ r_loader (resolve_options (ArgURL href)) = "auto"
       ∧ r_parentURL (resolve_options (ArgURL href)) = ParentURL href
       ∧ choose_loader h path (resolve_options (ArgURL href))
         = (let* l := detectLoader h (Some true) (isTypeScriptFile path) in
            ret (loader_name l))
       ∧ ∀ w : World,
           ∃ (l : SupportedLoader) (w1 : World),
             detectLoader h (Some true) (isTypeScriptFile path) w = (Returned l, w1)
             ∧ importTs h path (ArgURL href) w
               = dispatch h (loader_name l) path
                   {| r_loaderOptions := no_loader_options;
                      r_parentURL := ParentURL href;
                      r_cache := Some true;
                      r_ignoreImportxWarning := false;
                      r_otherOptions := {| other_loader := None; other_with := None |};
                      r_raw_cache := CacheUndefined;
                      r_loader := "auto" |}
                   (record (EvDebug (loader_name l) path (ParentURL href)) w1))
  ∧ (∀ o : ImportTsOptions,
       cache o = CacheUndefined ->
       r_cache (resolve_options (ArgOptions o)) = Some true
       ∧ ∀ w : World,
           importTs h path (ArgOptions o) w
           = importTs h path
               (ArgOptions {| loader := loader o; loaderOptions := loaderOptions o;
                              cache := CacheBool true;
                              ignoreImportxWarning := ignoreImportxWarning o;
                              parentURL := parentURL o; with_ := with_ o |}) w)
  ∧ (∀ o : ImportTsOptions,
       loader o = None ->
       r_loader (resolve_options (ArgOptions o)) = "auto"
       ∧ ∀ w : World,
           ∃ (l : SupportedLoader) (w1 : World),
             detectLoader h (cache_or_true (cache o)) (isTypeScriptFile path) w
             = (Returned l, w1)
             ∧ importTs h path (ArgOptions o) w
               = dispatch h (loader_name l) path (resolve_options (ArgOptions o))
                   (record (EvDebug (loader_name l) path (parentURL o)) w1)).
Proof.
  assert (Hauto : ∀ (options : ImportTsArg) (w : World),
             r_loader (resolve_options options) = "auto" ->
             ∃ (l : SupportedLoader) (w1 : World),
               detectLoader h (r_cache (resolve_options options))
                 (isTypeScriptFile path) w = (Returned l, w1)
               ∧ importTs h path options w
                 = dispatch h (loader_name l) path (resolve_options options)
                     (record (EvDebug (loader_name l) path
                                (r_parentURL (resolve_options options))) w1)).
  { intros options w Hloader.
    destruct (choose_loader_auto h path _ w Hloader) as (l & w1 & Hdetect & Hchoose & _).
    exists l, w1. split; [exact Hdetect|].
    rewrite importTs_run, Hchoose. reflexivity. }
  split; [|split; [|split]].
  - intros s. repeat (split; [reflexivity|]).
    intros w. apply (Hauto (ArgString s) w eq_refl).
  - intros href. repeat (split; [reflexivity|]).
    intros w. apply (Hauto (ArgURL href) w eq_refl).
  - intros [ld lo c ig parent attrs] Hcache. cbn in Hcache. subst c.
    split; [reflexivity|]. intros w. cbn [loader loaderOptions ignoreImportxWarning
                                          parentURL with_].
    rewrite !importTs_run.
    change (choose_loader h path
              (resolve_options
                 (ArgOptions {| loader := ld; loaderOptions := lo; cache := CacheBool true;
                                ignoreImportxWarning := ig; parentURL := parent;
                                with_ := attrs |})) w)
      with (choose_loader h path
              (resolve_options
                 (ArgOptions {| loader := ld; loaderOptions := lo; cache := CacheUndefined;
                                ignoreImportxWarning := ig; parentURL := parent;
                                with_ := attrs |})) w).
    destruct (choose_loader h path _ w) as [[chosen|f] w1]; reflexivity.
  - intros o Hloader.
    assert (Hresolved : r_loader (resolve_options (ArgOptions o)) = "auto").
    { cbn. rewrite Hloader. reflexivity. }
    split; [exact Hresolved|]. intros w.
    apply (Hauto (ArgOptions o) w Hresolved).
Qed.

Lemma importTs_defaults_witness :
  r_cache (resolve_options
             (ArgOptions (example_options None CacheUndefined None))) = Some true
  ∧ r_loader (resolve_options
                (ArgOptions (example_options None CacheUndefined None))) = "auto"
  ∧ importTs node_18_19 "./mod.ts"
      (ArgOptions (example_options None CacheUndefined None)) initial_world
    = importTs node_18_19 "./mod.ts"
        (ArgOptions (example_options None (CacheBool true) None)) initial_world.
Proof.
  split; [|split].
  - apply (proj1 (proj1 (proj2 (proj2 (importTs_defaults node_18_19 "./mod.ts")))
                    (example_options None CacheUndefined None) eq_refl)).
  - apply (proj1 (proj2 (proj2 (proj2 (importTs_defaults node_18_19 "./mod.ts")))
                    (example_options None CacheUndefined None) eq_refl)).
  - apply (proj2 (proj1 (proj2 (proj2 (importTs_defaults node_18_19 "./mod.ts")))
                    (example_options None CacheUndefined None) eq_refl) initial_world).
Defined.

(** C4, on the code: [index.ts] exports no [getModuleInfo], and a call of
    [importTs] changes the module's state at most by memoising the probe;
    nothing is recorded about the module it returns. *)
Theorem importTs_records_nothing (h : Host) (w : World) (path : string)
    (options : ImportTsArg) :
  ("getModuleInfo" ∉ exports)
  ∧ (_isNativeTsImportSupported (importTs h path options w).2
     = _isNativeTsImportSupported w
     ∨ _isNativeTsImportSupported (importTs h path options w).2
       = Some (probe_reports h w)).
Proof.
  split.
  - unfold exports. rewrite !not_elem_of_cons.
    repeat split; try discriminate. apply not_elem_of_nil.
  - rewrite importTs_run.
    destruct (decide (r_loader (resolve_options options) = "auto")) as [Hauto | Hexplicit].
    + destruct (choose_loader_auto h path _ w Hauto)
        as (l & w1 & _ & Hchoose & _ & Hmemo).
      rewrite Hchoose, dispatch_keeps_memo. exact Hmemo.
    + rewrite choose_loader_explicit by exact Hexplicit.
      rewrite dispatch_keeps_memo. left. reflexivity.
Qed.

(** * Further properties of [index.ts] *)

(** ** [isTypeScriptFile] *)

Lemma re_ts_end_inv (l : list ascii) :
  re_ts_end l = true ->
  l = ["t"; "s"]%char ∨ l = ["t"; "s"; "x"]%char.
Proof.
  destruct l as [|a [|b [|c [|d l]]]]; try discriminate.
  - destruct a as [[] [] [] [] [] [] [] []]; discriminate.
  - destruct a as [[] [] [] [] [] [] [] []]; try discriminate.
    destruct b as [[] [] [] [] [] [] [] []]; try discriminate. intros _. by left.
  - destruct a as [[] [] [] [] [] [] [] []]; try discriminate.
    destruct b as [[] [] [] [] [] [] [] []]; try discriminate.
    destruct c as [[] [] [] [] [] [] [] []]; try discriminate. intros _. by right.
  - destruct a as [[] [] [] [] [] [] [] []]; try discriminate.
    destruct b as [[] [] [] [] [] [] [] []]; try discriminate.
    destruct c as [[] [] [] [] [] [] [] []]; try discriminate.
Qed.

Lemma re_ts_here_inv (l : list ascii) :
  re_ts_here l = true ->
  ∃ suffix, suffix ∈ ts_suffixes ∧ l = String.list_ascii_of_string suffix.
Proof.
  destruct l as [|a r]; [discriminate|].
  unfold re_ts_here.
  destruct (decide (a = "."%char)) as [-> | Hne].
  2:{ destruct a as [[] [] [] [] [] [] [] []]; try discriminate. contradiction. }
  intros H. apply orb_true_iff in H as [H | H].
  - apply re_ts_end_inv in H as [-> | ->].
    + exists ".ts". split; [set_solver|reflexivity].
    + exists ".tsx". split; [set_solver|reflexivity].
  - destruct r as [|c r']; [discriminate|].
    apply andb_true_iff in H as [Hc H].
    apply re_ts_end_inv in H.
    apply orb_true_iff in Hc as [Hc | Hc]; apply bool_decide_eq_true in Hc; subst c;
      destruct H as [-> | ->].
    + exists ".mts". split; [set_solver|reflexivity].
    + exists ".mtsx". split; [set_solver|reflexivity].
    + exists ".cts". split; [set_solver|reflexivity].
    + exists ".ctsx". split; [set_solver|reflexivity].
Qed.

Lemma re_ts_here_suffix (suffix : string) :
  suffix ∈ ts_suffixes -> re_ts_here (String.list_ascii_of_string suffix) = true.
Proof.
  unfold ts_suffixes. rewrite !elem_of_cons, elem_of_nil.
  intros [-> | [-> | [-> | [-> | [-> | [-> | []]]]]]]; reflexivity.
Qed.

Lemma re_ts_test_split (l : list ascii) :
  re_ts_test l = true ↔ ∃ stem rest, l = (stem ++ rest)%list ∧ re_ts_here rest = true.
Proof.
  induction l as [|a l IH].
  - cbn. split; [discriminate|]. intros (stem & rest & Heq & Hhere).
    symmetry in Heq. apply app_eq_nil in Heq as [_ ->]. discriminate.
  - cbn [re_ts_test]. rewrite orb_true_iff, IH. split.
    + intros [Hhere | (stem & rest & -> & Hhere)].
      * exists [], (a :: l). split; [reflexivity | exact Hhere].
      * exists (a :: stem), rest. split; [reflexivity | exact Hhere].
    + intros (stem & rest & Heq & Hhere). destruct stem as [|b stem].
      * left. cbn in Heq. rewrite Heq. exact Hhere.
      * right. injection Heq as -> ->. eauto.
Qed.

Lemma list_ascii_of_string_app (s1 s2 : string) :
  String.list_ascii_of_string (s1 +:+ s2)
  = (String.list_ascii_of_string s1 ++ String.list_ascii_of_string s2)%list.
Proof.
  induction s1 as [|c s1 IH]; [reflexivity|]. simpl. f_equal. exact IH.
Qed.

(** X1: [isTypeScriptFile] accepts a path exactly when it ends in [.ts],
    [.tsx], [.mts], [.mtsx], [.cts] or [.ctsx]; what comes before the
    suffix does not matter. *)
Theorem isTypeScriptFile_suffixes (path : string) :
  isTypeScriptFile path = true
  ↔ ∃ stem suffix, path = stem +:+ suffix ∧ suffix ∈ ts_suffixes.
Proof.
  unfold isTypeScriptFile. rewrite re_ts_test_split. split.
  - intros (stem & rest & Heq & Hhere).
    apply re_ts_here_inv in Hhere as (suffix & Hin & ->).
    exists (String.string_of_list_ascii stem), suffix. split; [|exact Hin].
    rewrite <- (String.string_of_list_ascii_of_string path), Heq.
    rewrite <- (String.list_ascii_of_string_of_list_ascii stem) at 1.
    rewrite <- list_ascii_of_string_app.
    apply String.string_of_list_ascii_of_string.
  - intros (stem & suffix & -> & Hin).
    exists (String.list_ascii_of_string stem), (String.list_ascii_of_string suffix).
    split; [apply list_ascii_of_string_app | apply re_ts_here_suffix, Hin].
Qed.

(** ** [tsxOrJiti] on any array of version numbers *)

(** X2: for an array [nodeVersionNumbers] of any length whose entries are
    integers or [NaN], [tsxOrJiti] answers [jiti] exactly when the first entry is a number below 18, or is
    18 with a numeric second entry below 19, or is 20 with a numeric second
    entry below 8.  So entries after the second never matter, a missing or
    non-numeric major gives [tsx], and from major 18 on a missing or
    non-numeric minor gives [tsx] as well. *)
Theorem tsxOrJiti_any_version (h : Host) (v : list JsNumber) :
  nodeVersionNumbers h = Some v ->
  (tsxOrJiti h = jiti
   ↔ ∃ major : Z,
       v !! 0%nat = Some (Num major)
       ∧ (major < 18
          ∨ (major = 18 ∧ ∃ minor : Z, v !! 1%nat = Some (Num minor) ∧ minor < 19)
          ∨ (major = 20 ∧ ∃ minor : Z, v !! 1%nat = Some (Num minor) ∧ minor < 8)))
  ∧ (v !! 0%nat = None ∨ v !! 0%nat = Some NaN -> tsxOrJiti h = tsx)
  ∧ (∀ major : Z,
       v !! 0%nat = Some (Num major) -> 18 ≤ major ->
       v !! 1%nat = None ∨ v !! 1%nat = Some NaN ->
       tsxOrJiti h = tsx).
Proof.
  intros Hversion. unfold tsxOrJiti. rewrite Hversion.
  split; [|split].
  - destruct (v !! 0%nat) as [[|major]|]; cbn;
      try (split; [discriminate | intros (m & Hm & _); discriminate]).
    destruct (Z.ltb_spec major 18) as [Hlt | Hge]; cbn.
    { split; [intros _; exists major; auto | reflexivity]. }
    destruct (v !! 1%nat) as [[|minor]|]; cbn; rewrite ?andb_false_r; cbn.
    + split; [discriminate|].
      intros (m & [= <-] & [? | [(_ & k & ? & _) | (_ & k & ? & _)]]);
        [lia | discriminate | discriminate].
    + destruct (Z.eqb_spec major 18) as [-> | Hne18]; cbn.
      * destruct (Z.ltb_spec minor 19) as [Hm | Hm]; cbn.
        -- split; [intros _ | reflexivity]. exists 18. split; [reflexivity|].
           right. left. split; [reflexivity|]. exists minor. auto.
        -- split; [discriminate|].
           intros (m & [= <-] & [? | [(_ & k & [= <-] & ?) | (? & _)]]); lia.
      * destruct (Z.eqb_spec major 20) as [-> | Hne20]; cbn.
        -- destruct (Z.ltb_spec minor 8) as [Hm | Hm]; cbn.
           ++ split; [intros _ | reflexivity]. exists 20. split; [reflexivity|].
              right. right. split; [reflexivity|]. exists minor. auto.
           ++ split; [discriminate|].
              intros (m & [= <-] & [? | [(? & _) | (_ & k & [= <-] & ?)]]); lia.
        -- split; [discriminate|].
           intros (m & [= <-] & [? | [(? & _) | (? & _)]]); lia.
    + split; [discriminate|].
      intros (m & [= <-] & [? | [(_ & k & ? & _) | (_ & k & ? & _)]]);
        [lia | discriminate | discriminate].
  - intros [-> | ->]; reflexivity.
  - intros major -> Hge [-> | ->]; cbn;
      destruct (Z.ltb_spec major 18); try lia; cbn; rewrite ?andb_false_r; reflexivity.
Qed.

Lemma tsxOrJiti_any_version_witness :
  tsxOrJiti (example_host (Some [Num 18]) (Rejected (HostErr "no"))) = tsx.
Proof.
  apply (proj2 (proj2 (tsxOrJiti_any_version
                         (example_host (Some [Num 18]) (Rejected (HostErr "no")))
                         [Num 18] eq_refl)) 18 eq_refl).
  - lia.
  - left. reflexivity.
Defined.

(** ** [importTs]: validation and the native case *)

Section Cases.

Variable h : Host.

(** Once the loader is known, [importTs] is the debug line followed by the
    [switch]. *)
Lemma importTs_chosen (path : string) (options : ImportTsArg) (w w0 : World)
    (chosen : string) :
  choose_loader h path (resolve_options options) w = (Returned chosen, w0) ->
  importTs h path options w =
  dispatch h chosen path (resolve_options options)
    (record (EvDebug chosen path (r_parentURL (resolve_options options))) w0).
Proof. intros Hchosen. rewrite importTs_run, Hchosen. reflexivity. Qed.

Lemma guard_fires_iff (l : SupportedLoader) (o : Resolved_options) :
  guard l o = true
  ↔ r_ignoreImportxWarning o = false
    ∧ ((l = native ∧ r_cache o = Some false)
       ∨ ((l = tsx ∨ l = bundle_require) ∧ r_cache o = Some true)).
Proof.
  unfold guard.
  destruct l, (r_cache o) as [[|]|], (r_ignoreImportxWarning o); cbn;
    (split;
     [ first [discriminate | intros _; split; [reflexivity|]; auto 6]
     | intros [Hignore [[Hl Hc] | [[Hl | Hl] Hc]]];
       first [discriminate | reflexivity] ]).
Qed.

Lemma case_native_passes (path : string) (o : Resolved_options) (w : World) :
  guard native o = false ->
  case_native h path o w =
  (let* specifier :=
     (if starts_with_dot path
      then let* href := lift_outcome (new_URL h path (r_parentURL o)) in
           lift_outcome (fileURLToPath h (ParentURL href))
      else ret path) in
   await (EvNativeImport specifier (r_otherOptions o))
         (fun tr => host_import h tr specifier (r_otherOptions o))) w.
Proof. intros Hguard. unfold case_native. cbn in Hguard. rewrite Hguard. reflexivity. Qed.

End Cases.

(** X3: when the loader the [switch] runs on is one of the four (asked for
    or detected), [importTs] ends in an error of its own exactly when
    [ignoreImportxWarning] is off and either the loader is [native] with
    [cache === false], or it is [tsx] or [bundle-require] with
    [cache === true]; and then nothing but the debug line has happened. *)
Theorem validation_exactly_when (h : Host) (w w0 : World) (path : string)
    (options : ImportTsArg) (l : SupportedLoader) :
  choose_loader h path (resolve_options options) w = (Returned (loader_name l), w0) ->
  ((∃ msg, (importTs h path options w).1 = Thrown (ImportxError msg))
   ↔ r_ignoreImportxWarning (resolve_options options) = false
     ∧ ((l = native ∧ r_cache (resolve_options options) = Some false)
        ∨ ((l = tsx ∨ l = bundle_require)
           ∧ r_cache (resolve_options options) = Some true)))
  ∧ (∀ msg,
       (importTs h path options w).1 = Thrown (ImportxError msg) ->
       (importTs h path options w).2
       = record (EvDebug (loader_name l) path (r_parentURL (resolve_options options))) w0).
Proof.
  intros Hchosen. rewrite (importTs_chosen h _ _ _ _ _ Hchosen).
  rewrite <- guard_fires_iff.
  destruct (guard l (resolve_options options)) eqn:Hguard.
  - rewrite dispatch_guard_fires by exact Hguard. cbn. split; [|reflexivity].
    split; [reflexivity | eauto].
  - pose proof (dispatch_guard_passes h l path (resolve_options options)
                  (record (EvDebug (loader_name l) path
                             (r_parentURL (resolve_options options))) w0) Hguard)
      as Hpass.
    split.
    + split; [|discriminate]. intros (msg & Hthrown). destruct (Hpass msg Hthrown).
    + intros msg Hthrown. destruct (Hpass msg Hthrown).
Qed.

Lemma validation_exactly_when_witness :
  ∃ msg,
    (importTs node_18_19 "./mod.ts" (options_with (Some "native") (CacheBool false) None)
       initial_world).1
    = Thrown (ImportxError msg).
Proof.
  apply (proj1 (validation_exactly_when node_18_19 initial_world initial_world "./mod.ts"
                  (options_with (Some "native") (CacheBool false) None) native eq_refl)).
  split; [reflexivity|]. left. split; reflexivity.
Defined.

(** X4: asking for [tsx] or [bundle-require] without saying anything about
    [cache] and without the bypass always fails: [cache] defaults to [true],
    which neither loader supports. *)
Theorem explicit_uncached_loader_needs_cache_option (h : Host) (w : World)
    (path name : string) (o : ImportTsOptions) :
  loader o = Some name ->
  name = "tsx" ∨ name = "bundle-require" ->
  cache o = CacheUndefined ->
  ignoreImportxWarning o = None ∨ ignoreImportxWarning o = Some false ->
  ∃ msg,
    importTs h path (ArgOptions o) w
    = (Thrown (ImportxError msg), record (EvDebug name path (parentURL o)) w).
Proof.
  intros Hloader Hname Hcache Hignore.
  assert (Hguard : ∀ l, l = tsx ∨ l = bundle_require ->
                        guard l (resolve_options (ArgOptions o)) = true).
  { intros l Hl. apply guard_fires_iff. cbn. rewrite Hcache.
    split; [destruct Hignore as [-> | ->]; reflexivity | right; auto]. }
  destruct Hname as [-> | ->].
  - exists (guard_message tsx).
    pose proof (importTs_validation h tsx path (ArgOptions o) w) as Hv.
    rewrite (Hguard tsx (or_introl eq_refl)) in Hv.
    apply Hv. cbn. rewrite Hloader. reflexivity.
  - exists (guard_message bundle_require).
    pose proof (importTs_validation h bundle_require path (ArgOptions o) w) as Hv.
    rewrite (Hguard bundle_require (or_intror eq_refl)) in Hv.
    apply Hv. cbn. rewrite Hloader. reflexivity.
Qed.

Lemma explicit_uncached_loader_needs_cache_option_witness :
  ∃ msg,
    importTs bun_like "./mod.ts" (options_with (Some "tsx") CacheUndefined None)
      initial_world
    = (Thrown (ImportxError msg),
       record (EvDebug "tsx" "./mod.ts" (ParentURL "file:///app/main.mjs")) initial_world).
Proof.
  apply (explicit_uncached_loader_needs_cache_option bun_like initial_world "./mod.ts"
           "tsx" (example_options (Some "tsx") CacheUndefined None) eq_refl).
  - left. reflexivity.
  - reflexivity.
  - left. reflexivity.
Defined.

(** ** [importTs]: what each case hands to its collaborator *)

Section Shapes.

Variable h : Host.

Lemma await_run {A} (ev : Event) (call : list Event -> Outcome A) (w : World) :
  await ev call w = (settle (call (trace w)), record ev w).
Proof. unfold await, settle. destruct (call (trace w)); reflexivity. Qed.

Lemma bind_returned {A B} (m : Async A) (k : A -> Async B) (w w' : World) (a : A) :
  m w = (Returned a, w') -> bind m k w = k a w'.
Proof. intros Hm. unfold bind. rewrite Hm. reflexivity. Qed.

Lemma bind_thrown {A B} (m : Async A) (k : A -> Async B) (w w' : World) (f : Failure) :
  m w = (Thrown f, w') -> bind m k w = (Thrown f, w').
Proof. intros Hm. unfold bind. rewrite Hm. reflexivity. Qed.

Lemma lift_resolved {A} (o : Outcome A) (a : A) (w : World) :
  o = Resolved a -> lift_outcome o w = (Returned a, w).
Proof. intros ->. reflexivity. Qed.

Lemma lift_rejected {A} (o : Outcome A) (e : HostError) (w : World) :
  o = Rejected e -> @lift_outcome A o w = (Thrown (HostFailure e), w).
Proof. intros ->. reflexivity. Qed.

Lemma await_then_run (ev : Event) (call : list Event -> Outcome JsModule) (w : World) :
  (let* v := await ev call in resolve_with (host_then h) v) w
  = (then_result h (trace w ++ [ev]) (call (trace w)), record ev w).
Proof.
  unfold bind, await, resolve_with, then_result, settle.
  destruct (call (trace w)) as [v|e]; [|reflexivity].
  destruct (mod_thenable v); [|reflexivity]. cbn.
  destruct (host_then h (trace w ++ [ev]) v); reflexivity.
Qed.

Lemma load_resolved (pkg : string) (w : World) :
  host_load_package h (trace w) pkg = Resolved tt ->
  await (EvLoadPackage pkg) (fun tr => host_load_package h tr pkg) w
  = (Returned tt, record (EvLoadPackage pkg) w).
Proof. intros Hload. rewrite await_run, Hload. reflexivity. Qed.

Lemma load_rejected (pkg : string) (w : World) (e : HostError) :
  host_load_package h (trace w) pkg = Rejected e ->
  await (EvLoadPackage pkg) (fun tr => host_load_package h tr pkg) w
  = (Thrown (HostFailure e), record (EvLoadPackage pkg) w).
Proof. intros Hload. rewrite await_run, Hload. reflexivity. Qed.

End Shapes.

(** X5: when the [native] case runs on a path that does not start with a
    dot, the path itself is imported, together with what is left of the
    options (the [with] attributes and the [loader] field); the parent URL
    is never converted, so it cannot make the call fail.  The import's result
    or failure is passed on as it is. *)
Theorem native_bare_specifier (h : Host) (w w0 : World) (path : string)
    (options : ImportTsArg) :
  choose_loader h path (resolve_options options) w = (Returned "native", w0) ->
  guard native (resolve_options options) = false ->
  starts_with_dot path = false ->
  importTs h path options w
  = (settle (host_import h
               (trace w0 ++ [EvDebug "native" path (r_parentURL (resolve_options options))])
               path (r_otherOptions (resolve_options options))),
     record (EvNativeImport path (r_otherOptions (resolve_options options)))
       (record (EvDebug "native" path (r_parentURL (resolve_options options))) w0)).
Proof.
  intros Hchosen Hguard Hbare.
  rewrite (importTs_chosen h _ _ _ _ _ Hchosen).
  rewrite (dispatch_loader h native), case_native_passes by exact Hguard.
  rewrite Hbare. unfold bind, ret. rewrite await_run. reflexivity.
Qed.

Lemma native_bare_specifier_witness :
  importTs node_18_19 "lodash" (options_with (Some "native") CacheNull None) initial_world
  = (Returned (example_module "lodash"),
     {| _isNativeTsImportSupported := None;
        trace := [EvDebug "native" "lodash" (ParentURL "file:///app/main.mjs");
                  EvNativeImport "lodash"
                    {| other_loader := Some "native"; other_with := None |}] |}).
Proof.
  apply (native_bare_specifier node_18_19 initial_world initial_world "lodash"
           (options_with (Some "native") CacheNull None) eq_refl eq_refl eq_refl).
Defined.

(** X6: when the [native] case runs on a path that starts with a dot, the
    path is first resolved against the parent with [new URL] and then turned
    into a file path, and that file path is what is imported; if either step
    throws, the failure is passed on and nothing is imported. *)
Theorem native_relative_specifier (h : Host) (w w0 : World) (path : string)
    (options : ImportTsArg) :
  choose_loader h path (resolve_options options) w = (Returned "native", w0) ->
  guard native (resolve_options options) = false ->
  starts_with_dot path = true ->
  (∀ href file,
     new_URL h path (r_parentURL (resolve_options options)) = Resolved href ->
     fileURLToPath h (ParentURL href) = Resolved file ->
     importTs h path options w
     = (settle (host_import h
                  (trace w0 ++ [EvDebug "native" path (r_parentURL (resolve_options options))])
                  file (r_otherOptions (resolve_options options))),
        record (EvNativeImport file (r_otherOptions (resolve_options options)))
          (record (EvDebug "native" path (r_parentURL (resolve_options options))) w0)))
  ∧ (∀ e,
       new_URL h path (r_parentURL (resolve_options options)) = Rejected e ->
       importTs h path options w
       = (Thrown (HostFailure e),
          record (EvDebug "native" path (r_parentURL (resolve_options options))) w0))
  ∧ (∀ href e,
       new_URL h path (r_parentURL (resolve_options options)) = Resolved href ->
       fileURLToPath h (ParentURL href) = Rejected e ->
       importTs h path options w
       = (Thrown (HostFailure e),
          record (EvDebug "native" path (r_parentURL (resolve_options options))) w0)).
Proof.
  intros Hchosen Hguard Hdot.
  rewrite (importTs_chosen h _ _ _ _ _ Hchosen).
  rewrite (dispatch_loader h native), case_native_passes by exact Hguard.
  rewrite Hdot.
  set (w1 := record (EvDebug "native" path (r_parentURL (resolve_options options))) w0).
  split; [|split].
  - intros href file Hurl Hfile.
    rewrite (bind_returned _ _ w1 w1 file).
    + rewrite await_run. reflexivity.
    + rewrite (bind_returned _ _ w1 w1 href) by (apply lift_resolved, Hurl).
      apply lift_resolved, Hfile.
  - intros e Hurl. apply bind_thrown.
    apply bind_thrown. apply lift_rejected, Hurl.
  - intros href e Hurl Hfile. apply bind_thrown.
    erewrite bind_returned by (apply lift_resolved, Hurl).
    apply lift_rejected, Hfile.
Qed.

Lemma native_relative_specifier_witness :
  importTs node_18_19 "./mod.mjs" (options_with (Some "native") CacheNull None)
    initial_world
  = (Returned (example_module "./mod.mjs"),
     {| _isNativeTsImportSupported := None;
        trace := [EvDebug "native" "./mod.mjs" (ParentURL "file:///app/main.mjs");
                  EvNativeImport "./mod.mjs"
                    {| other_loader := Some "native"; other_with := None |}] |}).
Proof.
  apply (proj1 (native_relative_specifier node_18_19 initial_world initial_world
                  "./mod.mjs" (options_with (Some "native") CacheNull None)
                  eq_refl eq_refl eq_refl) "./mod.mjs" "./mod.mjs" eq_refl eq_refl).
Defined.

(** X7: when the [tsx] case runs and the package and the parent both
    resolve, [tsImport] is called with the path and with the caller's tsx
    options in which [parentURL] is set to the parent's file path: the caller
    cannot override [parentURL], every other key is passed as given.  What
    [tsImport] resolves or rejects with is passed on as it is. *)
Theorem tsx_call_shape (h : Host) (w w0 : World) (path parent : string)
    (options : ImportTsArg) :
  choose_loader h path (resolve_options options) w = (Returned "tsx", w0) ->
  guard tsx (resolve_options options) = false ->
  host_load_package h
    (trace w0 ++ [EvDebug "tsx" path (r_parentURL (resolve_options options))])
    "tsx/esm/api" = Resolved tt ->
  fileURLToPath h (r_parentURL (resolve_options options)) = Resolved parent ->
  let opts : Bag :=
    <["parentURL" := VString parent]>
      (default ∅ (lo_tsx (r_loaderOptions (resolve_options options)))) in
  let w2 :=
    record (EvLoadPackage "tsx/esm/api")
      (record (EvDebug "tsx" path (r_parentURL (resolve_options options))) w0) in
  importTs h path options w
  = (settle (host_tsImport h (trace w2) path opts), record (EvTsImport path opts) w2).
Proof.
  intros Hchosen Hguard Hload Hparent opts w2.
  rewrite (importTs_chosen h _ _ _ _ _ Hchosen).
  rewrite (dispatch_loader h tsx). unfold case_tsx.
  cbn [guard] in Hguard. rewrite Hguard.
  rewrite (bind_returned _ _ _ w2 tt) by (apply load_resolved, Hload).
  rewrite (bind_returned _ _ w2 w2 parent) by (apply lift_resolved, Hparent).
  rewrite await_run. unfold spread, spread_opt.
  rewrite <- insert_union_singleton_l. reflexivity.
Qed.

Lemma tsx_call_shape_witness :
  importTs node_18_19 "./mod.ts" (options_with (Some "tsx") CacheNull None) initial_world
  = (Returned (example_module "./mod.ts"),
     {| _isNativeTsImportSupported := None;
        trace := [EvDebug "tsx" "./mod.ts" (ParentURL "file:///app/main.mjs");
                  EvLoadPackage "tsx/esm/api";
                  EvTsImport "./mod.ts"
                    (<["parentURL" := VString "file:///app/main.mjs"]> ∅)] |}).
Proof.
  apply (tsx_call_shape node_18_19 initial_world initial_world "./mod.ts"
           "file:///app/main.mjs" (options_with (Some "tsx") CacheNull None)
           eq_refl eq_refl eq_refl eq_refl).
Defined.

(** X8: when the [jiti] case runs and the package and the parent both
    resolve, jiti is created for the parent's file path and called on the
    path.  In its options the caller's jiti options win; [esmResolve] is
    [true] unless the caller sets it; [cache] and [requireCache] are [false]
    when the cache requirement is [false] and the caller does not set them,
    and absent otherwise; no other key is added.  A failure of jiti is passed
    on; what jiti hands back is returned as it is unless it has a callable
    [then], in which case the promise adopts it. *)
Theorem jiti_call_shape (h : Host) (w w0 : World) (path parent : string)
    (options : ImportTsArg) :
  choose_loader h path (resolve_options options) w = (Returned "jiti", w0) ->
  host_load_package h
    (trace w0 ++ [EvDebug "jiti" path (r_parentURL (resolve_options options))])
    "jiti" = Resolved tt ->
  fileURLToPath h (r_parentURL (resolve_options options)) = Resolved parent ->
  let user : Bag := default ∅ (lo_jiti (r_loaderOptions (resolve_options options))) in
  let w2 :=
    record (EvLoadPackage "jiti")
      (record (EvDebug "jiti" path (r_parentURL (resolve_options options))) w0) in
  ∃ opts : Bag,
    importTs h path options w
    = (then_result h (trace w2 ++ [EvJiti parent opts path])
         (host_jiti h (trace w2) parent opts path),
       record (EvJiti parent opts path) w2)
    ∧ (∀ v, host_jiti h (trace w2) parent opts path = Resolved v ->
            mod_thenable v = false ->
            (importTs h path options w).1 = Returned v)
    ∧ (∀ k v, user !! k = Some v -> opts !! k = Some v)
    ∧ (user !! "esmResolve" = None -> opts !! "esmResolve" = Some (VBool true))
    ∧ (∀ k, k = "cache" ∨ k = "requireCache" -> user !! k = None ->
            opts !! k
            = if bool_decide (r_cache (resolve_options options) = Some false)
              then Some (VBool false) else None)
    ∧ (∀ k, user !! k = None ->
            k ≠ "esmResolve" -> k ≠ "cache" -> k ≠ "requireCache" ->
            opts !! k = None).
Proof.
  intros Hchosen Hload Hparent user w2.
  exists (user ∪ (jiti_cache_flags (r_raw_cache (resolve_options options))
                  ∪ {[ "esmResolve" := VBool true ]})).
  assert (Hrun : importTs h path options w
                 = (then_result h
                      (trace w2
                       ++ [EvJiti parent
                             (user ∪ (jiti_cache_flags (r_raw_cache (resolve_options options))
                                      ∪ {[ "esmResolve" := VBool true ]})) path])
                      (host_jiti h (trace w2) parent
                         (user ∪ (jiti_cache_flags (r_raw_cache (resolve_options options))
                                  ∪ {[ "esmResolve" := VBool true ]})) path),
                    record (EvJiti parent
                              (user ∪ (jiti_cache_flags (r_raw_cache (resolve_options options))
                                       ∪ {[ "esmResolve" := VBool true ]})) path) w2)).
  { rewrite (importTs_chosen h _ _ _ _ _ Hchosen).
    rewrite (dispatch_loader h jiti). unfold case_jiti.
    rewrite (bind_returned _ _ _ w2 tt) by (apply load_resolved, Hload).
    rewrite (bind_returned _ _ w2 w2 parent) by (apply lift_resolved, Hparent).
    apply await_then_run. }
  split; [exact Hrun|]. split; [|split; [|split; [|split]]].
  - intros v Hv Hplain. rewrite Hrun. cbn [fst]. rewrite Hv. cbn. rewrite Hplain.
    reflexivity.
  - intros k v Hk. apply lookup_union_Some_l, Hk.
  - intros Hk. rewrite lookup_union_r by exact Hk.
    unfold jiti_cache_flags.
    destruct (r_raw_cache (resolve_options options)) as [| |[|]];
      rewrite ?left_id_L by apply _; try apply lookup_singleton_eq.
    rewrite !lookup_union_r; [apply lookup_singleton_eq|].
    rewrite lookup_insert_ne by discriminate. apply lookup_singleton_ne. discriminate.
  - intros k Hk Huser. rewrite lookup_union_r by exact Huser.
    assert (Hraw : r_cache (resolve_options options)
                   = cache_or_true (r_raw_cache (resolve_options options)))
      by reflexivity.
    rewrite Hraw. unfold jiti_cache_flags, cache_or_true.
    destruct (r_raw_cache (resolve_options options)) as [| |[|]]; cbn [bool_decide];
      rewrite ?left_id_L by apply _;
      try (rewrite bool_decide_eq_false_2 by discriminate;
           apply lookup_singleton_ne; destruct Hk as [-> | ->]; discriminate).
    rewrite bool_decide_eq_true_2 by reflexivity.
    apply lookup_union_Some_l.
    destruct Hk as [-> | ->].
    + apply lookup_insert_eq.
    + rewrite lookup_insert_ne by discriminate. apply lookup_singleton_eq.
  - intros k Huser Hesm Hcache Hrequire. rewrite lookup_union_r by exact Huser.
    apply lookup_union_None. split.
    + unfold jiti_cache_flags.
      destruct (r_raw_cache (resolve_options options)) as [| |[|]];
        try apply lookup_empty.
      rewrite lookup_insert_ne by congruence. apply lookup_singleton_ne. congruence.
    + apply lookup_singleton_ne. congruence.
Qed.

Lemma jiti_call_shape_witness :
  ∃ opts : Bag,
    (importTs node_18_18 "./mod.ts" (options_with (Some "jiti") (CacheBool false) None)
       initial_world).1 = Returned (example_module "./mod.ts")
    ∧ last (trace (importTs node_18_18 "./mod.ts"
                     (options_with (Some "jiti") (CacheBool false) None)
                     initial_world).2)
      = Some (EvJiti "file:///app/main.mjs" opts "./mod.ts")
    ∧ opts !! "esmResolve" = Some (VBool true)
    ∧ opts !! "requireCache" = Some (VBool false).
Proof.
  destruct (jiti_call_shape node_18_18 initial_world initial_world "./mod.ts"
              "file:///app/main.mjs" (options_with (Some "jiti") (CacheBool false) None)
              eq_refl eq_refl eq_refl)
    as (opts & Hrun & _ & _ & Hesm & Hflags & _).
  exists opts. rewrite Hrun. split; [reflexivity|]. split; [reflexivity|].
  split; [apply Hesm; reflexivity|].
  apply (Hflags "requireCache"); [right; reflexivity | reflexivity].
Defined.

(** X9: when the [bundle-require] case runs and the package and the parent
    both resolve, [bundleRequire] is called with the caller's options in which
    [filepath] is the path and [cwd] is the directory of the parent's file
    path: the caller cannot override either.  A failure is passed on; the
    [mod] it resolves with is returned as it is unless it has a callable
    [then], in which case the promise adopts it. *)
Theorem bundle_require_call_shape (h : Host) (w w0 : World) (path parent : string)
    (options : ImportTsArg) :
  choose_loader h path (resolve_options options) w = (Returned "bundle-require", w0) ->
  guard bundle_require (resolve_options options) = false ->
  host_load_package h
    (trace w0 ++ [EvDebug "bundle-require" path (r_parentURL (resolve_options options))])
    "bundle-require" = Resolved tt ->
  fileURLToPath h (r_parentURL (resolve_options options)) = Resolved parent ->
  let opts : Bag :=
    <["filepath" := VString path]>
      (<["cwd" := VString (dirname h parent)]>
         (default ∅ (lo_bundleRequire (r_loaderOptions (resolve_options options))))) in
  let w2 :=
    record (EvLoadPackage "bundle-require")
      (record (EvDebug "bundle-require" path (r_parentURL (resolve_options options))) w0) in
  importTs h path options w
  = (then_result h (trace w2 ++ [EvBundleRequire opts])
       (host_bundleRequire h (trace w2) opts),
     record (EvBundleRequire opts) w2)
  ∧ (∀ v, host_bundleRequire h (trace w2) opts = Resolved v ->
          mod_thenable v = false ->
          (importTs h path options w).1 = Returned v).
Proof.
  intros Hchosen Hguard Hload Hparent opts w2.
  assert (Hrun : importTs h path options w
                 = (then_result h (trace w2 ++ [EvBundleRequire opts])
                      (host_bundleRequire h (trace w2) opts),
                    record (EvBundleRequire opts) w2)).
  { rewrite (importTs_chosen h _ _ _ _ _ Hchosen).
    rewrite (dispatch_loader h bundle_require). unfold case_bundle_require.
    cbn [guard] in Hguard. rewrite Hguard.
    rewrite (bind_returned _ _ _ w2 tt) by (apply load_resolved, Hload).
    rewrite (bind_returned _ _ w2 w2 parent) by (apply lift_resolved, Hparent).
    unfold spread, spread_opt.
    rewrite <- insert_union_l, <- insert_union_singleton_l.
    apply await_then_run. }
  split; [exact Hrun|].
  intros v Hv Hplain. rewrite Hrun. cbn [fst]. rewrite Hv. cbn. rewrite Hplain.
  reflexivity.
Qed.

Lemma bundle_require_call_shape_witness :
  importTs node_18_19 "./mod.ts" (options_with (Some "bundle-require") CacheNull None)
    initial_world
  = (Returned (example_module "bundle"),
     {| _isNativeTsImportSupported := None;
        trace := [EvDebug "bundle-require" "./mod.ts" (ParentURL "file:///app/main.mjs");
                  EvLoadPackage "bundle-require";
                  EvBundleRequire
                    (<["filepath" := VString "./mod.ts"]>
                       (<["cwd" := VString "file:///app/main.mjs"]> ∅))] |}).
Proof.
  apply (proj1 (bundle_require_call_shape node_18_19 initial_world initial_world
                  "./mod.ts" "file:///app/main.mjs"
                  (options_with (Some "bundle-require") CacheNull None)
                  eq_refl eq_refl eq_refl eq_refl)).
Defined.

(** X10: for [tsx], [jiti] and [bundle-require], the engine is not called
    unless its package loads and the parent converts to a file path: if the
    package fails to load, that failure is passed on and the parent is not
    even converted; if the parent does not convert (it is not a [file:] URL,
    say), that failure is passed on after the package was loaded. *)
Theorem engine_needs_package_and_parent (h : Host) (w w0 : World) (path : string)
    (options : ImportTsArg) (l : SupportedLoader) :
  l ≠ native ->
  choose_loader h path (resolve_options options) w = (Returned (loader_name l), w0) ->
  guard l (resolve_options options) = false ->
  let w1 :=
    record (EvDebug (loader_name l) path (r_parentURL (resolve_options options))) w0 in
  (∀ e,
     host_load_package h (trace w1) (package_of l) = Rejected e ->
     importTs h path options w
     = (Thrown (HostFailure e), record (EvLoadPackage (package_of l)) w1))
  ∧ (∀ e,
       host_load_package h (trace w1) (package_of l) = Resolved tt ->
       fileURLToPath h (r_parentURL (resolve_options options)) = Rejected e ->
       importTs h path options w
       = (Thrown (HostFailure e), record (EvLoadPackage (package_of l)) w1)).
Proof.
  intros Hengine Hchosen Hguard w1.
  rewrite (importTs_chosen h _ _ _ _ _ Hchosen), dispatch_loader.
  fold w1.
  destruct l; [| | |contradiction]; cbn [guard] in Hguard;
    unfold case_tsx, case_jiti, case_bundle_require; rewrite ?Hguard;
    cbn [package_of];
    (split;
     [ intros e Hload; apply bind_thrown, load_rejected, Hload
     | intros e Hload Hparent;
       rewrite (bind_returned _ _ _ _ tt (load_resolved h _ _ Hload));
       apply bind_thrown, lift_rejected, Hparent ]).
Qed.

Lemma engine_needs_package_and_parent_witness :
  importTs host_without_packages "./mod.ts" (options_with (Some "jiti") CacheNull None)
    initial_world
  = (Thrown (HostFailure (HostErr "ERR_MODULE_NOT_FOUND")),
     {| _isNativeTsImportSupported := None;
        trace := [EvDebug "jiti" "./mod.ts" (ParentURL "file:///app/main.mjs");
                  EvLoadPackage "jiti"] |}).
Proof.
  apply (proj1 (engine_needs_package_and_parent host_without_packages
                  initial_world initial_world "./mod.ts"
                  (options_with (Some "jiti") CacheNull None)
                  jiti ltac:(discriminate) eq_refl eq_refl)
           (HostErr "ERR_MODULE_NOT_FOUND") eq_refl).
Defined.

(** X11: only the options of the loader that runs are used.  Two calls that
    differ only in [loaderOptions] behave the same as long as the two agree
    on the entry of the loader the [switch] runs on; for [native] nothing in
    [loaderOptions] matters. *)
Theorem other_loader_options_ignored (h : Host) (w w0 : World) (path : string)
    (ld : option string) (c : JsCache) (ig : option bool) (parent : ParentRef)
    (attrs : option Bag) (lo lo' : LoaderOptions) (l : SupportedLoader) :
  let call (x : LoaderOptions) :=
    ArgOptions {| loader := ld; loaderOptions := Some x; cache := c;
                  ignoreImportxWarning := ig; parentURL := parent; with_ := attrs |} in
  choose_loader h path (resolve_options (call lo)) w = (Returned (loader_name l), w0) ->
  (l = tsx -> lo_tsx lo = lo_tsx lo') ->
  (l = jiti -> lo_jiti lo = lo_jiti lo') ->
  (l = bundle_require -> lo_bundleRequire lo = lo_bundleRequire lo') ->
  importTs h path (call lo) w = importTs h path (call lo') w.
Proof.
  intros call Hchosen Htsx Hjiti Hbundle.
  assert (Hchosen' : choose_loader h path (resolve_options (call lo')) w
                     = (Returned (loader_name l), w0)) by exact Hchosen.
  rewrite (importTs_chosen h _ _ _ _ _ Hchosen), (importTs_chosen h _ _ _ _ _ Hchosen').
  rewrite !dispatch_loader.
  destruct l; unfold case_tsx, case_jiti, case_bundle_require, case_native; cbn.
  - rewrite (Htsx eq_refl). reflexivity.
  - rewrite (Hjiti eq_refl). reflexivity.
  - rewrite (Hbundle eq_refl). reflexivity.
  - reflexivity.
Qed.

Lemma other_loader_options_ignored_witness :
  importTs node_18_19 "./mod.ts"
    (ArgOptions {| loader := Some "jiti";
                   loaderOptions :=
                     Some {| lo_tsx := Some {[ "tsconfig" := VBool false ]};
                             lo_jiti := None; lo_bundleRequire := None |};
                   cache := CacheNull; ignoreImportxWarning := None;
                   parentURL := ParentURL "file:///app/main.mjs"; with_ := None |})
    initial_world
  = importTs node_18_19 "./mod.ts"
      (ArgOptions {| loader := Some "jiti";
                     loaderOptions := Some no_loader_options;
                     cache := CacheNull; ignoreImportxWarning := None;
                     parentURL := ParentURL "file:///app/main.mjs"; with_ := None |})
      initial_world.
Proof.
  apply (other_loader_options_ignored node_18_19 initial_world initial_world "./mod.ts"
           (Some "jiti") CacheNull None (ParentURL "file:///app/main.mjs") None
           {| lo_tsx := Some {[ "tsconfig" := VBool false ]};
              lo_jiti := None; lo_bundleRequire := None |}
           no_loader_options jiti eq_refl).
  - discriminate.
  - reflexivity.
  - discriminate.
Defined.

(** ** [importTs]: the order of events and the probe *)

Section Order.

Variable h : Host.

(** Choosing the loader never fails, and it consults the probe exactly when
    the loader is automatic, the cache requirement is not [false] and the
    path is a TypeScript file. *)
Lemma choose_loader_world (path : string) (o : Resolved_options) (w : World) :
  ∃ chosen,
    choose_loader h path o w
    = (Returned chosen,
       if bool_decide (r_loader o = "auto")
          && negb (bool_decide (r_cache o = Some false))
          && isTypeScriptFile path
       then after_probe h w else w).
Proof.
  unfold choose_loader. destruct (bool_decide (r_loader o = "auto")); cbn [andb].
  - unfold bind. rewrite detectLoader_run.
    destruct (bool_decide (r_cache o = Some false)); cbn; [eauto|].
    destruct (isTypeScriptFile path); cbn; [|eauto].
    destruct (probe_reports h w); [eauto|].
    destruct (bool_decide (r_cache o = Some true)); eauto.
  - eauto.
Qed.

(** What a case of the [switch] adds to the trace: at most a package load
    and a call of an engine, or one native import. *)
Lemma dispatch_trace (chosen path : string) (o : Resolved_options) (w : World) :
  ∃ post,
    trace (dispatch h chosen path o w).2 = (trace w ++ post)%list
    ∧ forallb is_engine_event post = true
    ∧ (length post ≤ 2)%nat.
Proof.
  unfold dispatch, case_native, case_tsx, case_jiti, case_bundle_require.
  repeat case_bool_decide; unfold_async;
    repeat match goal with |- context [if ?b then _ else _] => destruct b end;
    unfold_async; crunch_outcomes; cbn;
    first
      [ exists []; split; [symmetry; apply app_nil_r | split; [reflexivity | cbn; lia]]
      | eexists [_]; split; [reflexivity | split; [reflexivity | cbn; lia]]
      | eexists [_; _]; split;
        [rewrite <- app_assoc; reflexivity | split; [reflexivity | cbn; lia]] ].
Qed.

Lemma engine_events_no_probe (post : list Event) :
  forallb is_engine_event post = true -> probe_attempts post = 0%nat.
Proof.
  induction post as [|ev post IH]; [reflexivity|].
  cbn [forallb]. intros Hall. apply andb_true_iff in Hall as [Hev Hall].
  destruct ev; try discriminate; cbn; apply IH, Hall.
Qed.

(** [importTs], seen from outside: the probe if it is consulted, then one
    debug line, then what the chosen case does. *)
Lemma importTs_world (path : string) (options : ImportTsArg) (w : World) :
  ∃ chosen post,
    let w1 :=
      if bool_decide (r_loader (resolve_options options) = "auto")
         && negb (bool_decide (r_cache (resolve_options options) = Some false))
         && isTypeScriptFile path
      then after_probe h w else w in
    _isNativeTsImportSupported (importTs h path options w).2
    = _isNativeTsImportSupported w1
    ∧ trace (importTs h path options w).2
      = (trace w1 ++ EvDebug chosen path (r_parentURL (resolve_options options)) :: post)%list
    ∧ forallb is_engine_event post = true
    ∧ (length post ≤ 2)%nat.
Proof.
  destruct (choose_loader_world path (resolve_options options) w) as [chosen Hchosen].
  rewrite (importTs_chosen h _ _ _ _ _ Hchosen).
  destruct (dispatch_trace chosen path (resolve_options options)
              (record (EvDebug chosen path (r_parentURL (resolve_options options)))
                 (if bool_decide (r_loader (resolve_options options) = "auto")
                     && negb (bool_decide (r_cache (resolve_options options) = Some false))
                     && isTypeScriptFile path
                  then after_probe h w else w)))
    as (post & Htrace & Hengine & Hlen).
  exists chosen, post. cbv zeta. rewrite dispatch_keeps_memo, Htrace.
  split; [reflexivity|]. split; [|auto].
  cbn. rewrite <- app_assoc. reflexivity.
Qed.

End Order.


(** X13: [importTs] consults the probe only when the loader is automatic,
    the cache requirement is not [false] and the path is a TypeScript file.
    In every other case the memoised value and the number of probe imports
    are as before the call; in that case the value is set after the call. *)
Theorem probe_consulted_only_when_needed (h : Host) (w : World) (path : string)
    (options : ImportTsArg) :
  (r_loader (resolve_options options) ≠ "auto"
   ∨ r_cache (resolve_options options) = Some false
   ∨ isTypeScriptFile path = false ->
   _isNativeTsImportSupported (importTs h path options w).2 = _isNativeTsImportSupported w
   ∧ probe_attempts (trace (importTs h path options w).2) = probe_attempts (trace w))
  ∧ (r_loader (resolve_options options) = "auto" ->
     r_cache (resolve_options options) ≠ Some false ->
     isTypeScriptFile path = true ->
     _isNativeTsImportSupported (importTs h path options w).2
     = Some (probe_reports h w)).
Proof.
  destruct (importTs_world h path options w) as (chosen & post & Hmemo & Htrace & Hengine & _).
  cbv zeta in Hmemo, Htrace.
  split.
  - intros Hcase.
    assert (Hskip : bool_decide (r_loader (resolve_options options) = "auto")
                    && negb (bool_decide (r_cache (resolve_options options) = Some false))
                    && isTypeScriptFile path = false).
    { destruct Hcase as [Hl | [Hc | Hts]].
      - rewrite (bool_decide_eq_false_2 _ Hl). reflexivity.
      - rewrite (bool_decide_eq_true_2 _ Hc). apply andb_false_intro1, andb_false_r.
      - rewrite Hts. apply andb_false_r. }
    rewrite Hskip in Hmemo, Htrace. split; [exact Hmemo|].
    rewrite Htrace, probe_attempts_app. cbn [probe_attempts].
    rewrite (engine_events_no_probe post Hengine). lia.
  - intros Hauto Hcache Hts.
    rewrite (bool_decide_eq_true_2 _ Hauto), (bool_decide_eq_false_2 _ Hcache), Hts in Hmemo.
    cbn in Hmemo. rewrite Hmemo. apply after_probe_memo.
Qed.

Lemma probe_consulted_only_when_needed_witness :
  _isNativeTsImportSupported
    (importTs node_18_19 "./mod.ts" (options_with None (CacheBool false) None)
       initial_world).2 = None
  ∧ _isNativeTsImportSupported
      (importTs node_18_19 "./mod.ts" (options_with None CacheNull None)
         initial_world).2 = Some false.
Proof.
  split.
  - apply (proj1 (proj1 (probe_consulted_only_when_needed node_18_19 initial_world
                           "./mod.ts" (options_with None (CacheBool false) None))
                    (or_intror (or_introl eq_refl)))).
  - apply (proj2 (probe_consulted_only_when_needed node_18_19 initial_world
                    "./mod.ts" (options_with None CacheNull None)) eq_refl).
    + discriminate.
    + reflexivity.
Defined.

Lemma importTs_probe_once (h : Host) (path : string) (options : ImportTsArg) (w : World) :
  (is_Some (_isNativeTsImportSupported w) ->
   is_Some (_isNativeTsImportSupported (importTs h path options w).2)
   ∧ probe_attempts (trace (importTs h path options w).2) = probe_attempts (trace w))
  ∧ (probe_attempts (trace (importTs h path options w).2) = probe_attempts (trace w)
     ∨ (probe_attempts (trace (importTs h path options w).2) = S (probe_attempts (trace w))
        ∧ is_Some (_isNativeTsImportSupported (importTs h path options w).2))).
Proof.
  destruct (importTs_world h path options w) as (chosen & post & Hmemo & Htrace & Hengine & _).
  cbv zeta in Hmemo, Htrace. rewrite Hmemo, Htrace, probe_attempts_app.
  cbn [probe_attempts]. rewrite (engine_events_no_probe post Hengine), Nat.add_0_r.
  destruct (bool_decide (r_loader (resolve_options options) = "auto")
            && negb (bool_decide (r_cache (resolve_options options) = Some false))
            && isTypeScriptFile path); [|auto].
  unfold after_probe. destruct (_isNativeTsImportSupported w) as [b|] eqn:Hw.
  - rewrite Hw. auto.
  - cbn. split; [intros [? [=]]|]. right. rewrite probe_attempts_app. cbn.
    split; [lia | eauto].
Qed.

(** X14: over any sequence of [importTs] calls made one after the other,
    with any options and on any host, the probe's import runs at most once;
    it does not run at all when the memoised value is already set. *)
Theorem import_all_probes_once (h : Host) (calls : list (string * ImportTsArg))
    (w : World) :
  (probe_attempts (trace (import_all h calls w)) ≤ S (probe_attempts (trace w)))%nat
  ∧ (is_Some (_isNativeTsImportSupported w) ->
     probe_attempts (trace (import_all h calls w)) = probe_attempts (trace w)).
Proof.
  revert w. induction calls as [|[path options] calls IH]; intros w.
  - cbn. split; [lia | reflexivity].
  - cbn [import_all].
    destruct (importTs_probe_once h path options w) as [Hset Hstep].
    destruct (IH (importTs h path options w).2) as [Hle Hsame].
    split.
    + destruct Hstep as [Heq | [Heq Hmemo]].
      * rewrite <- Heq. exact Hle.
      * rewrite (Hsame Hmemo), Heq. lia.
    + intros Hw. destruct (Hset Hw) as [Hmemo Heq].
      rewrite (Hsame Hmemo). exact Heq.
Qed.

Lemma import_all_probes_once_witness :
  probe_attempts
    (trace (import_all node_18_19
              [("./a.ts", options_with None CacheNull None);
               ("./b.ts", ArgString "file:///app/main.mjs")]
              (importTs node_18_19 "./c.ts" (options_with None CacheNull None)
                 initial_world).2))
  = 1%nat.
Proof.
  apply (proj2 (import_all_probes_once node_18_19
                  [("./a.ts", options_with None CacheNull None);
                   ("./b.ts", ArgString "file:///app/main.mjs")]
                  (importTs node_18_19 "./c.ts" (options_with None CacheNull None)
                     initial_world).2)).
  eexists. reflexivity.
Defined.




(** ** Overlapping calls of the probe *)

Section Overlap.

Variable h : Host.

Lemma total_insert (f : ProbeTask -> nat) (ts : list ProbeTask) (i : nat)
    (t t' : ProbeTask) :
  ts !! i = Some t ->
  (total f (<[i := t']> ts) + f t = total f ts + f t')%nat.
Proof.
  unfold total. revert i. induction ts as [|x ts IH]; intros i Hi; [discriminate|].
  destruct i as [|i].
  - injection Hi as ->. cbn. lia.
  - specialize (IH i Hi).
    change (f x + sum_list (f <$> <[i := t']> ts) + f t
            = f x + sum_list (f <$> ts) + f t')%nat.
    lia.
Qed.

Lemma total_replicate (n : nat) : total not_started (replicate n Called) = n.
Proof.
  unfold total. induction n as [|n IH]; [reflexivity|]. cbn. rewrite IH. reflexivity.
Qed.

(** A run either starts one import for a call that had not started, or
    starts none. *)
Lemma sched_step_attempts (c c' : World * list ProbeTask) :
  sched_step h c c' ->
  (probe_attempts (trace c'.1) + total not_started c'.2
   ≤ probe_attempts (trace c.1) + total not_started c.2)%nat.
Proof.
  intros [w ts i t Hi Hrun]. cbn [fst snd].
  pose proof (total_insert not_started ts i t (probe_step h w t).2 Hi) as Htotal.
  destruct t as [|o|r]; [| |discriminate]; cbn in *.
  - destruct (_isNativeTsImportSupported w); cbn in *; [lia|].
    rewrite probe_attempts_app. cbn. lia.
  - lia.
Qed.

End Overlap.

(** X16: however calls of the probe overlap, each call starts the fixture
    import at most once: from [n] fresh calls, no schedule reaches more than
    [n] imports on top of those already made. *)
Theorem overlapping_calls_import_once_each (h : Host) (n : nat) (w w' : World)
    (ts' : list ProbeTask) :
  rtc (sched_step h) (w, replicate n Called) (w', ts') ->
  (probe_attempts (trace w') + total not_started ts' ≤ probe_attempts (trace w) + n)%nat.
Proof.
  intros Hreach. rewrite <- (total_replicate n) at 1.
  change (probe_attempts (trace (w', ts').1) + total not_started (w', ts').2
          ≤ probe_attempts (trace (w, replicate n Called).1)
            + total not_started (w, replicate n Called).2)%nat.
  induction Hreach as [c | c1 c2 c3 Hstep _ IH]; [lia|].
  pose proof (sched_step_attempts h _ _ Hstep). lia.
Qed.

Lemma overlapping_calls_import_once_each_witness :
  (probe_attempts (trace (probe_step node_18_19 initial_world Called).1)
   + total not_started [AwaitingImport (host_import_dummy node_18_19 []); Called]
   ≤ probe_attempts (trace initial_world) + 2)%nat.
Proof.
  apply (overlapping_calls_import_once_each node_18_19 2 initial_world
           (probe_step node_18_19 initial_world Called).1
           [AwaitingImport (host_import_dummy node_18_19 []); Called]).
  apply rtc_once.
  exact (sched_run node_18_19 initial_world [Called; Called] 0 Called eq_refl eq_refl).
Defined.

(** X17: on a host whose fixture import always settles the same way, calls
    of the probe that overlap in any way all return the same boolean, the one
    a single call would return. *)
Theorem overlapping_calls_agree (h : Host) (o : Outcome JsModule) (n : nat)
    (w w' : World) (ts' : list ProbeTask) :
  (∀ tr, host_import_dummy h tr = o) ->
  _isNativeTsImportSupported w = None ->
  rtc (sched_step h) (w, replicate n Called) (w', ts') ->
  (∀ i r, ts' !! i = Some (Settled r) -> r = Some (probe_reports h w))
  ∧ (_isNativeTsImportSupported w' = None
     ∨ _isNativeTsImportSupported w' = Some (probe_reports h w)).
Proof.
  intros Hhost Hfresh Hreach.
  assert (Hreport : probe_reports h w = probe_verdict o).
  { unfold probe_reports. rewrite Hfresh, Hhost. reflexivity. }
  rewrite Hreport.
  set (P := λ t : ProbeTask,
              t = Called ∨ t = AwaitingImport o ∨ t = Settled (Some (probe_verdict o))).
  set (Inv := λ c : World * list ProbeTask,
                (_isNativeTsImportSupported c.1 = None
                 ∨ _isNativeTsImportSupported c.1 = Some (probe_verdict o))
                ∧ Forall P c.2).
  assert (Hstep : ∀ c1 c2, sched_step h c1 c2 -> Inv c1 -> Inv c2).
  { intros c1 c2 [w1 ts1 i t Hi Hrun] [Hmemo Hall]. unfold Inv in *. cbn [fst snd] in *.
    pose proof (Forall_lookup_1 _ _ _ _ Hall Hi) as Ht.
    destruct Ht as [-> | [-> | ->]]; [| |discriminate]; cbn.
    - destruct Hmemo as [Hm | Hm]; rewrite Hm; cbn.
      + split; [left; exact Hm|]. apply Forall_insert; [exact Hall|].
        right. left. rewrite Hhost. reflexivity.
      + split; [right; exact Hm|]. apply Forall_insert; [exact Hall|].
        right. right. reflexivity.
    - split; [right; reflexivity|]. apply Forall_insert; [exact Hall|].
      right. right. reflexivity. }
  assert (Hpres : ∀ c1 c2, rtc (sched_step h) c1 c2 -> Inv c1 -> Inv c2).
  { induction 1 as [c | c1 c2 c3 H12 _ IH]; [auto|].
    intros H1. apply IH, (Hstep _ _ H12 H1). }
  assert (Hinv : Inv (w', ts')).
  { apply (Hpres _ _ Hreach). split; [left; exact Hfresh|].
    apply Forall_replicate. left. reflexivity. }
  destruct Hinv as [Hmemo Hall]. split; [|exact Hmemo].
  intros i r Hi. pose proof (Forall_lookup_1 _ _ _ _ Hall Hi) as [Ht | [Ht | Ht]];
    [discriminate | discriminate | congruence].
Qed.

Lemma overlapping_calls_agree_witness :
  Some false = Some (probe_reports node_18_19 initial_world).
Proof.
  refine (proj1 (overlapping_calls_agree node_18_19
                  (Rejected (HostErr "ERR_UNKNOWN_FILE_EXTENSION")) 2
                  initial_world
                  {| _isNativeTsImportSupported := Some false;
                     trace := [EvProbeImport; EvProbeImport] |}
                  [Settled (Some false); AwaitingImport (host_import_dummy node_18_19 [])]
                  (λ _, eq_refl) eq_refl
                  (rtc_l _ _ _ _
                     (sched_run node_18_19 initial_world [Called; Called] 0 Called
                        eq_refl eq_refl)
                     (rtc_l _ _ _ _
                        (sched_run node_18_19
                           {| _isNativeTsImportSupported := None;
                              trace := [EvProbeImport] |}
                           [AwaitingImport (host_import_dummy node_18_19 []); Called]
                           1 Called eq_refl eq_refl)
                        (rtc_once _ _
                           (sched_run node_18_19
                              {| _isNativeTsImportSupported := None;
                                 trace := [EvProbeImport; EvProbeImport] |}
                              [AwaitingImport (host_import_dummy node_18_19 []);
                               AwaitingImport (host_import_dummy node_18_19 [])]
                              0 (AwaitingImport (host_import_dummy node_18_19 []))
                              eq_refl eq_refl))))) 0%nat (Some false) eq_refl).
Defined.
